(** * Order lifecycle of the vendor tools (mcp_vendor.py) and order intake
      (mcp_run.py): a shallow embedding and its verified properties.

    The Python module keeps its orders in one global, insertion-ordered
    dictionary and mutates the order dictionaries in place.  Here the
    store is passed explicitly: every tool is a function from the store
    (and the values the environment supplies during the call: the clock
    reading of [now()], the identifier drawn by [uuid4]) to a result and
    the store left behind. *)

From Stdlib Require Import List String Ascii ZArith Bool Lia.
From Stdlib Require Import Permutation Sorted DecimalString.
From Stdlib Require Import Floats.PrimFloat Numbers.Cyclic.Int63.Uint63.
Import ListNotations.
Open Scope string_scope.

(** ** Python dictionaries: insertion-ordered maps with string keys *)

Module Dict.

Definition t (V : Type) : Type := list (string * V).

(** [d.get(k)] *)
Fixpoint get {V} (d : t V) (k : string) : option V :=
  match d with
  | [] => None
  | (k', v) :: d' => if String.eqb k' k then Some v else get d' k
  end.

(** [d[k] = v]: an existing key keeps its position, a new key goes last. *)
Fixpoint set {V} (d : t V) (k : string) (v : V) : t V :=
  match d with
  | [] => [(k, v)]
  | (k', v') :: d' =>
      if String.eqb k' k then (k', v) :: d' else (k', v') :: set d' k v
  end.

(** [d.values()], in insertion order. *)
Definition values {V} (d : t V) : list V := map snd d.

(** [d.keys()], in insertion order. *)
Definition keys {V} (d : t V) : list string := map fst d.

(** In-place mutation of the object stored under [k], reached through
    the reference that [d.get(k)] returned: the entry stays where it
    is and now holds [v]; a key that is absent changes nothing. *)
Fixpoint mutate {V} (d : t V) (k : string) (v : V) : t V :=
  match d with
  | [] => []
  | (k', v') :: d' =>
      if String.eqb k' k then (k', v) :: d' else (k', v') :: mutate d' k v
  end.

End Dict.

(** ** Enumerations *)

Module OrderStatus.

Inductive t : Type :=
| PENDING | ACCEPTED | REJECTED | READY | ASSIGNED | DELIVERED | PAID.

(** The string each member carries ([class OrderStatus(str, Enum)]). *)
Definition value (s : t) : string :=
  match s with
  | PENDING => "pending"
  | ACCEPTED => "accepted"
  | REJECTED => "rejected"
  | READY => "ready"
  | ASSIGNED => "assigned"
  | DELIVERED => "delivered"
  | PAID => "paid"
  end.

Definition name (s : t) : string :=
  match s with
  | PENDING => "PENDING"
  | ACCEPTED => "ACCEPTED"
  | REJECTED => "REJECTED"
  | READY => "READY"
  | ASSIGNED => "ASSIGNED"
  | DELIVERED => "DELIVERED"
  | PAID => "PAID"
  end.

(** [a == b] on members is [str.__eq__] on their values. *)
Definition eqb (a b : t) : bool := String.eqb (value a) (value b).

(** [member == text], as in the status filter of [orders_list]. *)
Definition eqb_str (a : t) (text : string) : bool := String.eqb (value a) text.

End OrderStatus.

Module PaymentStatus.

Inductive t : Type := UNREQUESTED | REQUESTED | PAID.

Definition value (s : t) : string :=
  match s with
  | UNREQUESTED => "unrequested"
  | REQUESTED => "requested"
  | PAID => "paid"
  end.

Definition eqb (a b : t) : bool := String.eqb (value a) (value b).

End PaymentStatus.

(** How an f-string renders a member of a [str]-mixin [Enum] depends on
    the interpreter: up to Python 3.10 [format()] goes to the mixed-in
    [str] and prints the value; from 3.11 on it prints [str(member)],
    the qualified member name.  The tools are modelled under either
    behaviour. *)
Inductive FormatMode : Type :=
| format_value
| format_member.

Definition format_status (m : FormatMode) (s : OrderStatus.t) : string :=
  match m with
  | format_value => OrderStatus.value s
  | format_member => "OrderStatus." ++ OrderStatus.name s
  end.

(** ** Records

    One module per dictionary shape; the projections carry the
    dictionary's keys. *)

Module Agent.
Record t : Type := mk {
  id : string;
  name : string;
  phone : string
}.
End Agent.

Module Customer.
Record t : Type := mk {
  name : string;
  phone : string
}.
End Customer.

Module Item.
Record t : Type := mk {
  sku : string;
  qty : Z
}.
End Item.

Module Order.

Record t : Type := mk {
  order_id : string;
  vendor_id : string;
  customer : Customer.t;
  address : string;
  items : list Item.t;
  status : OrderStatus.t;
  created_at : Z;
  accepted_at : option Z;
  ready_at : option Z;
  assigned_at : option Z;
  delivered_at : option Z;
  paid_at : option Z;
  delivery_agent : option Agent.t;
  payment_requested : bool;
  payment_status : PaymentStatus.t
}.

(** Item assignments [o["field"] = v] on an order dictionary. *)

Definition set_status (o : t) (v : OrderStatus.t) : t :=
  mk (order_id o) (vendor_id o) (customer o) (address o) (items o)
     v (created_at o) (accepted_at o) (ready_at o) (assigned_at o)
     (delivered_at o) (paid_at o) (delivery_agent o)
     (payment_requested o) (payment_status o).

Definition set_accepted_at (o : t) (v : Z) : t :=
  mk (order_id o) (vendor_id o) (customer o) (address o) (items o)
     (status o) (created_at o) (Some v) (ready_at o) (assigned_at o)
     (delivered_at o) (paid_at o) (delivery_agent o)
     (payment_requested o) (payment_status o).

Definition set_ready_at (o : t) (v : Z) : t :=
  mk (order_id o) (vendor_id o) (customer o) (address o) (items o)
     (status o) (created_at o) (accepted_at o) (Some v) (assigned_at o)
     (delivered_at o) (paid_at o) (delivery_agent o)
     (payment_requested o) (payment_status o).

Definition set_assigned_at (o : t) (v : Z) : t :=
  mk (order_id o) (vendor_id o) (customer o) (address o) (items o)
     (status o) (created_at o) (accepted_at o) (ready_at o) (Some v)
     (delivered_at o) (paid_at o) (delivery_agent o)
     (payment_requested o) (payment_status o).

Definition set_delivered_at (o : t) (v : Z) : t :=
  mk (order_id o) (vendor_id o) (customer o) (address o) (items o)
     (status o) (created_at o) (accepted_at o) (ready_at o) (assigned_at o)
     (Some v) (paid_at o) (delivery_agent o)
     (payment_requested o) (payment_status o).

Definition set_paid_at (o : t) (v : Z) : t :=
  mk (order_id o) (vendor_id o) (customer o) (address o) (items o)
     (status o) (created_at o) (accepted_at o) (ready_at o) (assigned_at o)
     (delivered_at o) (Some v) (delivery_agent o)
     (payment_requested o) (payment_status o).

Definition set_delivery_agent (o : t) (v : Agent.t) : t :=
  mk (order_id o) (vendor_id o) (customer o) (address o) (items o)
     (status o) (created_at o) (accepted_at o) (ready_at o) (assigned_at o)
     (delivered_at o) (paid_at o) (Some v)
     (payment_requested o) (payment_status o).

Definition set_payment_status (o : t) (v : PaymentStatus.t) : t :=
  mk (order_id o) (vendor_id o) (customer o) (address o) (items o)
     (status o) (created_at o) (accepted_at o) (ready_at o) (assigned_at o)
     (delivered_at o) (paid_at o) (delivery_agent o)
     (payment_requested o) v.

End Order.

(** ** In-memory storage *)

Definition Store : Type := Dict.t Order.t.

Definition delivery_agents : Dict.t Agent.t :=
  [ ("agent_1", Agent.mk "agent_1" "Sam" "919991112223");
    ("agent_2", Agent.mk "agent_2" "Asha" "918881112223");
    ("agent_3", Agent.mk "agent_3" "Raj" "917771112223") ].

(** ** Tool results

    Every tool returns a dictionary; one constructor per shape, with the
    dictionary's keys as the constructor's fields.  [Failure e] is
    [{"ok": False, "error": e}]; every other shape carries ["ok": True],
    except [Listing], which has the two keys ["orders"] and ["count"]. *)

Inductive Result : Type :=
| Failure (error : string)
| Decided (status : OrderStatus.t) (vendor_message customer_message : string)
| MadeReady (status : OrderStatus.t) (vendor_message : string)
            (delivery_agent_options : list (string * string))
| AgentAssigned (status : OrderStatus.t) (vendor_message : string)
                (to_agent_message : string)
| PaymentRequestSent (vendor_message : string)
| StatusOnly (status : OrderStatus.t)
| Listing (orders : list Order.t) (count : nat).

Definition ok (r : Result) : bool :=
  match r with
  | Failure _ => false
  | _ => true
  end.

(** ** Utility functions *)

Definition get_order (orders : Store) (order_id : string) : option Order.t :=
  Dict.get orders order_id.

Definition validate_status (m : FormatMode) (order : Order.t)
    (expected_status : OrderStatus.t) : option string :=
  if negb (OrderStatus.eqb (Order.status order) expected_status)
  then Some ("Order must be '" ++ format_status m expected_status
             ++ "', but is '" ++ format_status m (Order.status order) ++ "'.")
  else None.

(** ** Order creation helper

    [oid] is the identifier that [str(uuid.uuid4())[:8]] yields and [t]
    the reading of [now()] during the call. *)

Definition new_order (oid : string) (t : Z)
    (vendor_id customer_name customer_phone address : string)
    (items : list Item.t) (orders : Store) : string * Store :=
  (oid,
   Dict.set orders oid
     (Order.mk oid vendor_id (Customer.mk customer_name customer_phone)
              address items OrderStatus.PENDING t
              None None None None None None false
              PaymentStatus.UNREQUESTED)).

(** Seeding at import time: the store is empty, so both demo orders are
    created. *)
Definition seed (oid1 : string) (t1 : Z) (oid2 : string) (t2 : Z) : Store :=
  let orders := [] in
  let orders :=
    snd (new_order oid1 t1 "vendor_1" "Neha" "919876500001" "221B Baker St"
                   [Item.mk "chai" 2] orders) in
  snd (new_order oid2 t2 "vendor_1" "Arjun" "919876500002" "MG Road, BLR"
                 [Item.mk "samosa" 6] orders).

(** ** Python built-ins used by the tools *)

(** Truth value of an [Optional[str]]: [None] and the empty string are
    false. *)
Definition truthy (s : option string) : bool :=
  match s with
  | None => false
  | Some EmptyString => false
  | Some (String _ _) => true
  end.

(** [l.sort(key=..., reverse=True)] with integer keys.  Python's sort is
    stable, also under [reverse=True]: the result is in descending key
    order and elements with equal keys keep their relative order.  That
    result is unique ([stable_descending_unique] below), so any stable
    algorithm models it; insertion from the right is used here. *)
Fixpoint insert_desc {A} (key : A -> Z) (x : A) (l : list A) : list A :=
  match l with
  | [] => [x]
  | y :: l' =>
      if (key y <=? key x)%Z then x :: y :: l' else y :: insert_desc key x l'
  end.

Fixpoint sort_desc {A} (key : A -> Z) (l : list A) : list A :=
  match l with
  | [] => []
  | x :: l' => insert_desc key x (sort_desc key l')
  end.

(** ** Tools

    Two truth tests of the source need no case of their own here.  An
    order dictionary always has its fifteen keys, so [if not o] is the
    test for [None].  The message of [validate_status] is never the
    empty string, so [if error] is the test for a message. *)

Section Tools.

Variable fmt : FormatMode.

Definition orders_list (vendor_id : string) (status_filter : option string)
    (orders : Store) : Result * Store :=
  let result :=
    filter (fun o => String.eqb (Order.vendor_id o) vendor_id)
           (Dict.values orders) in
  let result :=
    if truthy status_filter
    then filter (fun o => match status_filter with
                          | Some f => OrderStatus.eqb_str (Order.status o) f
                          | None => false
                          end) result
    else result in
  let result := sort_desc Order.created_at result in
  (Listing result (List.length result), orders).

Definition order_decide (order_id : string) (accept : bool) (t : Z)
    (orders : Store) : Result * Store :=
  match get_order orders order_id with
  | None => (Failure "order_not_found", orders)
  | Some o =>
      if negb (OrderStatus.eqb (Order.status o) OrderStatus.PENDING)
      then (Failure ("Order already '" ++ format_status fmt (Order.status o) ++ "'."),
            orders)
      else if accept then
        let o := Order.set_status o OrderStatus.ACCEPTED in
        let o := Order.set_accepted_at o t in
        (Decided (Order.status o)
                 ("Order " ++ order_id ++ " accepted.")
                 ("Your order " ++ order_id
                  ++ " is confirmed and being processed."),
         Dict.mutate orders order_id o)
      else
        let o := Order.set_status o OrderStatus.REJECTED in
        (Decided (Order.status o)
                 ("Order " ++ order_id ++ " rejected.")
                 "Unfortunately, your order could not be completed.",
         Dict.mutate orders order_id o)
  end.

Definition order_ready (order_id : string) (t : Z) (orders : Store)
    : Result * Store :=
  match get_order orders order_id with
  | None => (Failure "order_not_found", orders)
  | Some o =>
      match validate_status fmt o OrderStatus.ACCEPTED with
      | Some error => (Failure error, orders)
      | None =>
          let o := Order.set_status o OrderStatus.READY in
          let o := Order.set_ready_at o t in
          let agents :=
            map (fun a => (Agent.id a, Agent.name a))
                (Dict.values delivery_agents) in
          (MadeReady (Order.status o)
                     ("Order " ++ order_id
                      ++ " is ready. Choose a delivery agent.")
                     agents,
           Dict.mutate orders order_id o)
      end
  end.

Definition delivery_assign (order_id agent_id : string) (t : Z)
    (orders : Store) : Result * Store :=
  match get_order orders order_id with
  | None => (Failure "order_not_found", orders)
  | Some o =>
      match validate_status fmt o OrderStatus.READY with
      | Some error => (Failure error, orders)
      | None =>
          match Dict.get delivery_agents agent_id with
          | None => (Failure "agent_not_found", orders)
          | Some agent =>
              let o := Order.set_status o OrderStatus.ASSIGNED in
              let o := Order.set_assigned_at o t in
              let o := Order.set_delivery_agent o agent in
              (AgentAssigned (Order.status o)
                 ("Agent " ++ Agent.name agent ++ " assigned to order "
                  ++ order_id ++ ".")
                 ("Please pick up order " ++ order_id ++ " and deliver to "
                  ++ Customer.name (Order.customer o) ++ " at " ++ Order.address o
                  ++ "."),
               Dict.mutate orders order_id o)
          end
      end
  end.

(** [amount] and [currency] are accepted and never read. *)
Definition payment_request (order_id : string) (amount : option float)
    (currency : string) (orders : Store) : Result * Store :=
  match get_order orders order_id with
  | None => (Failure "order_not_found", orders)
  | Some o =>
      if negb (existsb (OrderStatus.eqb (Order.status o))
                       [OrderStatus.ASSIGNED; OrderStatus.DELIVERED])
      then (Failure
              "Can only request payment for assigned or delivered orders.",
            orders)
      else
        let o := Order.set_payment_status o PaymentStatus.REQUESTED in
        (PaymentRequestSent
           ("Payment request sent for order " ++ order_id ++ "."),
         Dict.mutate orders order_id o)
  end.

Definition order_delivered (order_id : string) (t : Z) (orders : Store)
    : Result * Store :=
  let o := get_order orders order_id in
  let error :=
    match o with
    | Some o => validate_status fmt o OrderStatus.ASSIGNED
    | None => Some "order_not_found"
    end in
  match error, o with
  | Some error, _ => (Failure error, orders)
  | None, Some o =>
      let o := Order.set_status o OrderStatus.DELIVERED in
      let o := Order.set_delivered_at o t in
      (StatusOnly (Order.status o), Dict.mutate orders order_id o)
  | None, None => (Failure "order_not_found", orders)
  end.

Definition order_paid (order_id : string) (t : Z) (orders : Store)
    : Result * Store :=
  match get_order orders order_id with
  | None => (Failure "Order not found or payment not requested.", orders)
  | Some o =>
      if negb (PaymentStatus.eqb (Order.payment_status o) PaymentStatus.REQUESTED)
      then (Failure "Order not found or payment not requested.", orders)
      else
        let o := Order.set_payment_status o PaymentStatus.PAID in
        let o := Order.set_status o OrderStatus.PAID in
        let o := Order.set_paid_at o t in
        (StatusOnly (Order.status o), Dict.mutate orders order_id o)
  end.

(** *** Calls and runs

    A call of a lifecycle tool, with its arguments; [exec] dispatches
    it, [t] being the clock reading during the call. *)

Inductive Call : Type :=
| Decide (order_id : string) (accept : bool)
| MarkReady (order_id : string)
| Assign (order_id agent_id : string)
| RequestPayment (order_id : string) (amount : option float)
                 (currency : string)
| MarkDelivered (order_id : string)
| ConfirmPayment (order_id : string).

Definition target (c : Call) : string :=
  match c with
  | Decide i _ | MarkReady i | Assign i _ | RequestPayment i _ _
  | MarkDelivered i | ConfirmPayment i => i
  end.

Definition exec (c : Call) (t : Z) (orders : Store) : Result * Store :=
  match c with
  | Decide i accept => order_decide i accept t orders
  | MarkReady i => order_ready i t orders
  | Assign i a => delivery_assign i a t orders
  | RequestPayment i amount currency => payment_request i amount currency orders
  | MarkDelivered i => order_delivered i t orders
  | ConfirmPayment i => order_paid i t orders
  end.

(** Everything that can happen to the store: an order is created, a
    lifecycle tool is called, or the orders are listed. *)
Inductive Event : Type :=
| Create (oid : string) (t : Z)
         (vendor_id customer_name customer_phone address : string)
         (items : list Item.t)
| Invoke (c : Call) (t : Z)
| List_ (vendor_id : string) (status_filter : option string).

Definition apply_event (orders : Store) (e : Event) : Store :=
  match e with
  | Create oid t v n p a its => snd (new_order oid t v n p a its orders)
  | Invoke c t => snd (exec c t orders)
  | List_ v f => snd (orders_list v f orders)
  end.

Definition run (events : list Event) (orders : Store) : Store :=
  fold_left apply_event events orders.

(** The stores the program can be in: those reached from the empty
    dictionary the module starts with. *)
Definition reachable (orders : Store) : Prop :=
  exists events, run events [] = orders.

End Tools.

(** ** Order intake (mcp_run.py)

    [place_order] parses a free-text item list against the menu and
    appends a [BusinessOrder] dump to the business's order list.  It is
    the one creation path of the repository that validates the items.

    Strings are kept as their UTF-8 bytes; [in] and [split] on bytes
    agree with Python's on code points.  [str.strip], [str.lower] and
    [float] follow Unicode and the float grammar, which are not code of
    this repository: they are taken as given. *)

(** [needle in hay] *)
Fixpoint contains (needle hay : string) : bool :=
  String.prefix needle hay
  || match hay with
     | EmptyString => false
     | String _ hay' => contains needle hay'
     end.

Fixpoint drop (n : nat) (s : string) : string :=
  match n, s with
  | O, _ => s
  | S _, EmptyString => EmptyString
  | S n', String _ s' => drop n' s'
  end.

(** Cut [s] at the first occurrence of a non-empty [sep]. *)
Fixpoint cut (sep s : string) : option (string * string) :=
  if String.prefix sep s then Some (EmptyString, drop (String.length sep) s)
  else match s with
       | EmptyString => None
       | String c s' =>
           match cut sep s' with
           | Some (before, rest) => Some (String c before, rest)
           | None => None
           end
       end.

(** [s.split(sep, 1)] for a non-empty [sep]. *)
Definition split1 (sep s : string) : list string :=
  match cut sep s with
  | Some (before, rest) => [before; rest]
  | None => [s]
  end.

(** [s.split(c)] for a one-character separator. *)
Fixpoint split_char (c : ascii) (s : string) : list string :=
  match s with
  | EmptyString => [EmptyString]
  | String a s' =>
      if Ascii.eqb a c then EmptyString :: split_char c s'
      else match split_char c s' with
           | h :: rest => String a h :: rest
           | [] => [String a EmptyString]
           end
  end.

(** [sep.join(l)] *)
Fixpoint join (sep : string) (l : list string) : string :=
  match l with
  | [] => EmptyString
  | [x] => x
  | x :: l' => x ++ sep ++ join sep l'
  end.

Definition newline : string := String (ascii_of_nat 10) EmptyString.

(** The marker the two item errors start with, as the bytes the source
    file holds (C3 A2 C5 92). *)
Definition cross_mark : string :=
  String (ascii_of_nat 195) (String (ascii_of_nat 162)
    (String (ascii_of_nat 197) (String (ascii_of_nat 146) EmptyString))).

Module MenuEntry.
Record t : Type := mk {
  price : Z;
  unit_ : string;
  available : bool
}.
End MenuEntry.

Definition menu : Dict.t MenuEntry.t :=
  [ ("Seer Fish (Surmai)", MenuEntry.mk 800 "kg" true);
    ("Pomfret (White)", MenuEntry.mk 650 "kg" true);
    ("Pomfret (Black)", MenuEntry.mk 550 "kg" true);
    ("Sardines (Tarle)", MenuEntry.mk 200 "kg" true);
    ("Mackerel (Bangda)", MenuEntry.mk 300 "kg" true);
    ("Kingfish (Viswon)", MenuEntry.mk 700 "kg" false);
    ("Silver Fish (Kane)", MenuEntry.mk 400 "kg" true);
    ("Pearl Spot (Karimeen)", MenuEntry.mk 900 "kg" true);
    ("Tiger Prawns", MenuEntry.mk 1200 "kg" true);
    ("White Prawns", MenuEntry.mk 1000 "kg" true);
    ("Crabs (Medium)", MenuEntry.mk 600 "kg" true);
    ("Squid", MenuEntry.mk 500 "kg" false);
    ("Mussels", MenuEntry.mk 250 "kg" true);
    ("Clams", MenuEntry.mk 300 "kg" true) ].

Module BusinessOrder.
Record t : Type := mk {
  customer_name : string;
  customer_contact : string;
  items : Dict.t float;
  special_instructions : string;
  timestamp : string
}.
End BusinessOrder.

(** What a call ends in: a returned value, or an exception that leaves
    the tool ([ValueError] from [float], [IndexError] from [parts[1]],
    or the [McpError] the tool raises itself). *)
Inductive Exception : Type :=
| ValueError
| IndexError
| McpError (code : Z) (message : string).

Inductive Outcome (A : Type) : Type :=
| Returned (a : A)
| Raised (e : Exception).

Arguments Returned {A} a.
Arguments Raised {A} e.

Definition bind {A B} (x : Outcome A) (k : A -> Outcome B) : Outcome B :=
  match x with
  | Returned a => k a
  | Raised e => Raised e
  end.

Notation "x <- c ;; k" := (bind c (fun x => k))
  (at level 61, c at next level, right associativity).
Notation "' p <- c ;; k" := (bind c (fun x => let p := x in k))
  (at level 61, p pattern, c at next level, right associativity).

Definition INVALID_PARAMS : Z := (-32602)%Z.

(** The confirmation [place_order] returns.  Its texts render the order
    and the total; the order and the total themselves are kept. *)
Module Confirmation.
Record t : Type := mk {
  your_details : string;
  items : Dict.t float;
  total : float;
  instructions : string
}.
End Confirmation.

Section Intake.

Variable py_strip : string -> string.
Variable py_lower : string -> string.
(** [float(s)]; [None] stands for the [ValueError] of a malformed
    number. *)
Variable py_float : string -> option float.
(** [BusinessOrder.timestamp]'s default, evaluated once when the class
    is defined. *)
Variable class_timestamp : string.

Definition float_of (s : string) : Outcome float :=
  match py_float s with
  | Some q => Returned q
  | None => Raised ValueError
  end.

Definition index {A} (l : list A) (i : nat) : Outcome A :=
  match nth_error l i with
  | Some a => Returned a
  | None => Raised IndexError
  end.

(** One round of the parsing loop, on the accumulators
    [(parsed_items, errors)].  The quantity is parsed before the name is
    taken, so a text without a blank fails in [float] or, if it is a
    number, in [parts[1]].  Past the [if not matched_item] test the
    match is a key of the menu: the two [Returned acc] branches after it
    only complete the case analysis and are never taken. *)
Definition parse_item (acc : Dict.t float * list string)
    (item_str : string) : Outcome (Dict.t float * list string) :=
  let '(parsed_items, errors) := acc in
  let item_str := py_strip item_str in
  if String.eqb item_str EmptyString then Returned acc
  else
    '(qty, item_name) <-
       (if contains "kg" item_str then
          let parts := split1 "kg" item_str in
          p0 <- index parts 0 ;;
          qty <- float_of (py_strip p0) ;;
          p1 <- index parts 1 ;;
          Returned (qty, py_strip p1)
        else
          let parts := split1 " " item_str in
          p0 <- index parts 0 ;;
          qty <- float_of (py_strip p0) ;;
          p1 <- index parts 1 ;;
          Returned (qty, py_strip p1)) ;;
    let matched_item :=
      find (fun menu_item =>
              contains (py_lower item_name) (py_lower menu_item))
           (Dict.keys menu) in
    if negb (truthy matched_item) then
      Returned (parsed_items,
                (errors ++ [(cross_mark ++ " '" ++ item_name
                             ++ "' not found in menu")%string])%list)
    else
      match matched_item with
      | None => Returned acc
      | Some matched_item =>
          match Dict.get menu matched_item with
          | None => Returned acc
          | Some entry =>
              if negb (MenuEntry.available entry) then
                Returned (parsed_items,
                          (errors ++ [(cross_mark ++ " '" ++ matched_item
                                       ++ "' is out of stock")%string])%list)
              else Returned (Dict.set parsed_items matched_item qty, errors)
          end
      end.

Fixpoint parse_items (acc : Dict.t float * list string)
    (item_strs : list string) : Outcome (Dict.t float * list string) :=
  match item_strs with
  | [] => Returned acc
  | item_str :: rest =>
      acc <- parse_item acc item_str ;;
      parse_items acc rest
  end.

Definition price_of (item : string) : float :=
  match Dict.get menu item with
  | Some entry => PrimFloat.of_uint63 (Uint63.of_Z (MenuEntry.price entry))
  | None => PrimFloat.zero
  end.

Definition place_order (customer_name customer_contact items
    special_instructions : string) (orders : list BusinessOrder.t)
    : Outcome Confirmation.t * list BusinessOrder.t :=
  match parse_items ([], []) (split_char "," items) with
  | Raised e => (Raised e, orders)
  | Returned (parsed_items, errors) =>
      match errors, parsed_items with
      | _ :: _, _ =>
          (Raised (McpError INVALID_PARAMS (join newline errors)), orders)
      | [], [] =>
          (Raised (McpError INVALID_PARAMS "No valid items in order"),
           orders)
      | [], _ :: _ =>
          let total :=
            fold_left (fun acc '(item, qty) =>
                         PrimFloat.add acc (PrimFloat.mul (price_of item) qty))
                      parsed_items PrimFloat.zero in
          let order :=
            BusinessOrder.mk customer_name customer_contact parsed_items
                             special_instructions class_timestamp in
          (Returned
             (Confirmation.mk
                (customer_name ++ " (" ++ customer_contact ++ ")")
                parsed_items total
                (if String.eqb special_instructions EmptyString
                 then "None" else special_instructions)),
           (orders ++ [order])%list)
      end
  end.

End Intake.

(** ** Notions the properties are stated with *)

(** The lifecycle graph: the status edges an order may take.  The last
    edge is the payment path: from whatever status the order has while
    its payment is requested, to Paid. *)
Definition edge (o o' : Order.t) : Prop :=
  let s := Order.status o in
  let s' := Order.status o' in
  (s = OrderStatus.PENDING /\ s' = OrderStatus.ACCEPTED)
  \/ (s = OrderStatus.PENDING /\ s' = OrderStatus.REJECTED)
  \/ (s = OrderStatus.ACCEPTED /\ s' = OrderStatus.READY)
  \/ (s = OrderStatus.READY /\ s' = OrderStatus.ASSIGNED)
  \/ (s = OrderStatus.ASSIGNED /\ s' = OrderStatus.DELIVERED)
  \/ (Order.payment_status o = PaymentStatus.REQUESTED
      /\ s' = OrderStatus.PAID).

Definition is_some {A} (x : option A) : bool :=
  match x with
  | Some _ => true
  | None => false
  end.

(** The precondition column of the operations table, on the order a
    call targets. *)
Definition precondition (c : Call) (o : Order.t) : bool :=
  match c with
  | Decide _ _ =>
      match Order.status o with OrderStatus.PENDING => true | _ => false end
  | MarkReady _ =>
      match Order.status o with OrderStatus.ACCEPTED => true | _ => false end
  | Assign _ a =>
      match Order.status o with OrderStatus.READY => true | _ => false end
      && is_some (Dict.get delivery_agents a)
  | MarkDelivered _ =>
      match Order.status o with OrderStatus.ASSIGNED => true | _ => false end
  | RequestPayment _ _ _ =>
      match Order.status o with
      | OrderStatus.ASSIGNED | OrderStatus.DELIVERED => true
      | _ => false
      end
  | ConfirmPayment _ =>
      match Order.payment_status o with
      | PaymentStatus.REQUESTED => true
      | _ => false
      end
  end.

(** What a successful call does to the order it targets, as a relation
    between the order before and after. *)
Inductive fires : Call -> Z -> Order.t -> Order.t -> Prop :=
| fires_accept i t o :
    Order.status o = OrderStatus.PENDING ->
    fires (Decide i true) t o
          (Order.set_accepted_at (Order.set_status o OrderStatus.ACCEPTED) t)
| fires_reject i t o :
    Order.status o = OrderStatus.PENDING ->
    fires (Decide i false) t o (Order.set_status o OrderStatus.REJECTED)
| fires_ready i t o :
    Order.status o = OrderStatus.ACCEPTED ->
    fires (MarkReady i) t o
          (Order.set_ready_at (Order.set_status o OrderStatus.READY) t)
| fires_assign i a agent t o :
    Order.status o = OrderStatus.READY ->
    Dict.get delivery_agents a = Some agent ->
    fires (Assign i a) t o
          (Order.set_delivery_agent
             (Order.set_assigned_at
                (Order.set_status o OrderStatus.ASSIGNED) t) agent)
| fires_request i amount currency t o :
    Order.status o = OrderStatus.ASSIGNED
    \/ Order.status o = OrderStatus.DELIVERED ->
    fires (RequestPayment i amount currency) t o
          (Order.set_payment_status o PaymentStatus.REQUESTED)
| fires_delivered i t o :
    Order.status o = OrderStatus.ASSIGNED ->
    fires (MarkDelivered i) t o
          (Order.set_delivered_at
             (Order.set_status o OrderStatus.DELIVERED) t)
| fires_paid i t o :
    Order.payment_status o = PaymentStatus.REQUESTED ->
    fires (ConfirmPayment i) t o
          (Order.set_paid_at
             (Order.set_status
                (Order.set_payment_status o PaymentStatus.PAID)
                OrderStatus.PAID) t).

(** The shape every order of a reachable store has: which timestamps
    are set and what the payment state is, by status. *)
Definition well_formed (o : Order.t) : bool :=
  let a := is_some (Order.accepted_at o) in
  let r := is_some (Order.ready_at o) in
  let g := is_some (Order.assigned_at o) in
  let d := is_some (Order.delivered_at o) in
  let p := is_some (Order.paid_at o) in
  let unrequested :=
    match Order.payment_status o with
    | PaymentStatus.UNREQUESTED => true
    | _ => false
    end in
  let unpaid :=
    match Order.payment_status o with
    | PaymentStatus.PAID => false
    | _ => true
    end in
  match Order.status o with
  | OrderStatus.PENDING | OrderStatus.REJECTED =>
      negb a && negb r && negb g && negb d && negb p && unrequested
  | OrderStatus.ACCEPTED =>
      a && negb r && negb g && negb d && negb p && unrequested
  | OrderStatus.READY =>
      a && r && negb g && negb d && negb p && unrequested
  | OrderStatus.ASSIGNED =>
      a && r && g && negb d && negb p && unpaid
  | OrderStatus.DELIVERED =>
      a && r && g && d && negb p && unpaid
  | OrderStatus.PAID =>
      a && r && g && p && negb unpaid
  end.

Definition store_ok (orders : Store) : Prop :=
  forall id o, get_order orders id = Some o -> well_formed o = true.

(** ASCII lower-casing, to compare words without regard to case. *)
Definition ascii_lower (c : ascii) : ascii :=
  let n := nat_of_ascii c in
  if (65 <=? n)%nat && (n <=? 90)%nat then ascii_of_nat (n + 32) else c.

Fixpoint lower (s : string) : string :=
  match s with
  | EmptyString => EmptyString
  | String c s' => String (ascii_lower c) (lower s')
  end.

(** A message names a state when the state's word occurs in it, in
    either case. *)
Definition mentions (message word : string) : bool :=
  contains (lower word) (lower message).

Definition names_status (message : string) (s : OrderStatus.t) : bool :=
  mentions message (OrderStatus.value s).

Definition names_payment (message : string) (s : PaymentStatus.t) : bool :=
  mentions message (PaymentStatus.value s).

(** Descending order by a key, and the elements that tie at a key, in
    the order the list has them. *)
Definition descending {A} (key : A -> Z) (l : list A) : Prop :=
  StronglySorted (fun a b => (key b <= key a)%Z) l.

Definition ties {A} (key : A -> Z) (k : Z) (l : list A) : list A :=
  filter (fun a => (key a =? k)%Z) l.

(** A stable descending sort of [l]: descending, with the ties of every
    key in the order [l] has them (so a permutation of [l]). *)
Definition stable_descending {A} (key : A -> Z) (l sorted : list A) : Prop :=
  descending key sorted /\ forall k, ties key k sorted = ties key k l.

Definition newest_first (l : list Order.t) : Prop :=
  descending Order.created_at l.

Definition created_in (k : Z) (l : list Order.t) : list Order.t :=
  ties Order.created_at k l.

(** The orders a listing asks for: those of the vendor and, under a
    filter that is not empty, of the status the filter spells. *)
Definition wanted (vendor_id : string) (status_filter : option string)
    (o : Order.t) : bool :=
  String.eqb (Order.vendor_id o) vendor_id
  && match status_filter with
     | Some (String _ _ as f) => String.eqb (OrderStatus.value (Order.status o)) f
     | _ => true
     end.

(** The reading of the listing contract under which every filter that
    is passed, the empty string included, selects by status. *)
Definition wanted_as_specified (vendor_id : string)
    (status_filter : option string) (o : Order.t) : bool :=
  String.eqb (Order.vendor_id o) vendor_id
  && match status_filter with
     | Some f => String.eqb (OrderStatus.value (Order.status o)) f
     | None => true
     end.

(** ** A sample run

    The two seed orders, with the first taken through its whole
    lifecycle and the second rejected; the stores along the way serve as
    concrete instances. *)

Definition sample_events : list Event :=
  [ Create "a1b2c3d4" 1000 "vendor_1" "Neha" "919876500001" "221B Baker St"
           [Item.mk "chai" 2];
    Create "e5f6a7b8" 1000 "vendor_1" "Arjun" "919876500002" "MG Road, BLR"
           [Item.mk "samosa" 6];
    Invoke (Decide "a1b2c3d4" true) 1010;
    Invoke (MarkReady "a1b2c3d4") 1020;
    Invoke (Assign "a1b2c3d4" "agent_1") 1030;
    Invoke (MarkDelivered "a1b2c3d4") 1040;
    Invoke (RequestPayment "a1b2c3d4" None "INR") 1050;
    Invoke (ConfirmPayment "a1b2c3d4") 1060;
    Invoke (Decide "e5f6a7b8" false) 1070 ].

(** The store after the first [n] events of the sample run. *)
Definition sample_store (n : nat) : Store :=
  run format_value (firstn n sample_events) [].


(** The five transition timestamps of an order, and the transition that
    sets each. *)
Inductive Stamp : Type :=
| accepted_at | ready_at | assigned_at | delivered_at | paid_at.

Definition stamp_of (k : Stamp) (o : Order.t) : option Z :=
  match k with
  | accepted_at => Order.accepted_at o
  | ready_at => Order.ready_at o
  | assigned_at => Order.assigned_at o
  | delivered_at => Order.delivered_at o
  | paid_at => Order.paid_at o
  end.

Definition sets (c : Call) : option Stamp :=
  match c with
  | Decide _ true => Some accepted_at
  | Decide _ false => None
  | MarkReady _ => Some ready_at
  | Assign _ _ => Some assigned_at
  | MarkDelivered _ => Some delivered_at
  | RequestPayment _ _ _ => None
  | ConfirmPayment _ => Some paid_at
  end.


(** ** The built-ins on plain ASCII input

    Instances of [str.strip], [str.lower] and [float] that agree with
    Python's on a small domain only: texts of ASCII letters, digits,
    punctuation and the blanks tab, line feed, vertical tab, form feed,
    carriage return and space, with numbers written as unsigned decimal
    integers below 2^63.  Outside it they differ ([ascii_strip] keeps
    other white space, [integer_float] rejects signs, fractions and
    exponents and wraps from 2^63 on).  They only give [place_order]
    concrete runs inside that domain; every general statement is about
    arbitrary [py_strip], [py_lower] and [py_float]. *)

Definition is_space (c : ascii) : bool :=
  let n := nat_of_ascii c in
  ((9 <=? n)%nat && (n <=? 13)%nat) || (n =? 32)%nat.

Fixpoint lstrip (s : string) : string :=
  match s with
  | EmptyString => EmptyString
  | String c s' => if is_space c then lstrip s' else s
  end.

Fixpoint rstrip (s : string) : string :=
  match s with
  | EmptyString => EmptyString
  | String c s' =>
      match rstrip s' with
      | EmptyString => if is_space c then EmptyString else String c EmptyString
      | r => String c r
      end
  end.

Definition ascii_strip (s : string) : string := rstrip (lstrip s).

Fixpoint digits (acc : Z) (s : string) : option Z :=
  match s with
  | EmptyString => Some acc
  | String c s' =>
      let n := nat_of_ascii c in
      if (48 <=? n)%nat && (n <=? 57)%nat
      then digits (10 * acc + Z.of_nat (n - 48)) s'
      else None
  end.

Definition integer_float (s : string) : option float :=
  match s with
  | EmptyString => None
  | _ => match digits 0 s with
         | Some z => Some (PrimFloat.of_uint63 (Uint63.of_Z z))
         | None => None
         end
  end.

Definition sample_place_order :=
  place_order ascii_strip lower integer_float "2025-08-10T09:00:00".


(** ** Menu lookup (mcp_run.py) *)

Definition bytes (codes : list nat) : string :=
  fold_right (fun n s => String (ascii_of_nat n) s) EmptyString codes.

(** The markers of the menu texts, as the bytes the source file holds. *)
Definition rupee_mark : string := bytes [195; 162; 226; 128; 154; 194; 185].
Definition check_mark : string := bytes [195; 162; 197; 147; 226; 128; 166].

(** [str(n)] of an integer. *)
Definition str_int (z : Z) : string := NilZero.string_of_int (Z.to_int z).

Module MenuLine.
Record t : Type := mk {
  item : string;
  price : string;
  status : string
}.
End MenuLine.

Module MenuReply.
Record t : Type := mk {
  business : string;
  menu : list MenuLine.t;
  contact : string;
  note : string
}.
End MenuReply.

Definition business_name : string := "Manglore FishMonger".
Definition business_contact : string := "+919876543210".

Definition format_line (entry : string * MenuEntry.t) : MenuLine.t :=
  let '(name, details) := entry in
  MenuLine.mk name
    (rupee_mark ++ str_int (MenuEntry.price details) ++ "/"
     ++ MenuEntry.unit_ details)
    (if MenuEntry.available details
     then check_mark ++ " Available"
     else cross_mark ++ " Out of Stock").

Section MenuLookup.

Variable py_lower : string -> string.

(** The menu entries a search text selects: those whose lower-cased
    name contains the lower-cased text, in menu order. *)
Definition search_results (item : string) : Dict.t MenuEntry.t :=
  let item_lower := py_lower item in
  filter (fun entry => contains item_lower (py_lower (fst entry))) menu.

Definition get_menu (item : option string) : Outcome MenuReply.t :=
  chosen <-
    (if truthy item then
       match item with
       | Some item =>
           let results := search_results item in
           match results with
           | [] => Raised (McpError INVALID_PARAMS
                             ("No items found matching '" ++ item ++ "'"))
           | _ :: _ => Returned results
           end
       | None => Returned menu
       end
     else Returned menu) ;;
  Returned
    (MenuReply.mk business_name (map format_line chosen) business_contact
       "Use '/order [items]' to place an order. Example: '/order 1kg surmai, 2kg bangda'").

(** The menu item an order line resolves to: the first whose lower-cased
    name contains the lower-cased item name (the search loop of
    [place_order]). *)
Definition match_item (item_name : string) : option string :=
  find (fun menu_item => contains (py_lower item_name) (py_lower menu_item))
       (Dict.keys menu).

End MenuLookup.

(** ** Sequences of calls *)

Definition invoke_all (calls : list (Call * Z)) : list Event :=
  map (fun ct => Invoke (fst ct) (snd ct)) calls.

(** The results of a sequence of lifecycle calls, each made on the
    store the calls before it left. *)
Fixpoint results (fmt : FormatMode) (calls : list (Call * Z))
    (orders : Store) : list Result :=
  match calls with
  | [] => []
  | (c, t) :: rest =>
      fst (exec fmt c t orders)
      :: results fmt rest (snd (exec fmt c t orders))
  end.

(** A request to [place_order]. *)
Module Request.
Record t : Type := mk {
  customer_name : string;
  customer_contact : string;
  items : string;
  special_instructions : string
}.
End Request.

Section IntakeRuns.

Variable py_strip : string -> string.
Variable py_lower : string -> string.
Variable py_float : string -> option float.
Variable class_timestamp : string.

Definition place (r : Request.t) (orders : list BusinessOrder.t)
    : Outcome Confirmation.t * list BusinessOrder.t :=
  place_order py_strip py_lower py_float class_timestamp
              (Request.customer_name r) (Request.customer_contact r)
              (Request.items r) (Request.special_instructions r) orders.

(** The order list after a sequence of requests. *)
Definition place_all (requests : list Request.t)
    (orders : list BusinessOrder.t) : list BusinessOrder.t :=
  fold_left (fun orders r => snd (place r orders)) requests orders.

End IntakeRuns.


(** The calls that take a pending order through its whole lifecycle. *)
Definition full_lifecycle (order_id agent_id : string)
    (t1 t2 t3 t4 t5 t6 : Z) : list (Call * Z) :=
  [ (Decide order_id true, t1);
    (MarkReady order_id, t2);
    (Assign order_id agent_id, t3);
    (MarkDelivered order_id, t4);
    (RequestPayment order_id None "INR", t5);
    (ConfirmPayment order_id, t6) ].


(** The orders of a listing result. *)
Definition listed (r : Result) : list Order.t :=
  match r with
  | Listing orders _ => orders
  | _ => []
  end.


(** A text without a comma. *)
Fixpoint no_comma (s : string) : bool :=
  match s with
  | EmptyString => true
  | String c s' => negb (Ascii.eqb c ",") && no_comma s'
  end.


(** ** Notions the further properties are stated with *)

(** The fields given at creation, and the payment_requested flag, are
    the same in two orders. *)
Definition same_given (o o' : Order.t) : Prop :=
  Order.order_id o' = Order.order_id o
  /\ Order.vendor_id o' = Order.vendor_id o
  /\ Order.customer o' = Order.customer o
  /\ Order.address o' = Order.address o
  /\ Order.items o' = Order.items o
  /\ Order.created_at o' = Order.created_at o
  /\ Order.payment_requested o' = Order.payment_requested o.

(** A property of every stored order, which may mention its key. *)
Definition all_orders (P : string -> Order.t -> Prop) (orders : Store)
    : Prop :=
  forall id o, get_order orders id = Some o -> P id o.

(** The agent recorded on an order: present exactly when the order was
    assigned, and an entry of the directory. *)
Definition agent_recorded (o : Order.t) : Prop :=
  (Order.delivery_agent o = None <-> Order.assigned_at o = None)
  /\ forall agent,
       Order.delivery_agent o = Some agent ->
       Dict.get delivery_agents (Agent.id agent) = Some agent.

(** An item map holds distinct names of menu items that are in stock. *)
Definition in_stock_items (d : Dict.t float) : Prop :=
  NoDup (Dict.keys d)
  /\ forall name, In name (Dict.keys d) ->
       exists entry,
         Dict.get menu name = Some entry
         /\ MenuEntry.available entry = true.

(** * Properties *)

(** ** Dictionaries *)

Module DictFacts.

Lemma get_mutate_same {V} (d : Dict.t V) k v v' :
  Dict.get d k = Some v -> Dict.get (Dict.mutate d k v') k = Some v'.
Proof.
  induction d as [|[k0 v0] d IH]; simpl; [discriminate|].
  destruct (String.eqb k0 k) eqn:E; simpl; rewrite E; auto.
Qed.

Lemma get_mutate_other {V} (d : Dict.t V) k k' v' :
  k' <> k -> Dict.get (Dict.mutate d k v') k' = Dict.get d k'.
Proof.
  intros Hne. induction d as [|[k0 v0] d IH]; simpl; [reflexivity|].
  destruct (String.eqb k0 k) eqn:E; simpl.
  - apply String.eqb_eq in E. subst k0.
    destruct (String.eqb k k') eqn:E'; [|reflexivity].
    apply String.eqb_eq in E'. congruence.
  - rewrite IH. reflexivity.
Qed.

Lemma mutate_absent {V} (d : Dict.t V) k v' :
  Dict.get d k = None -> Dict.mutate d k v' = d.
Proof.
  induction d as [|[k0 v0] d IH]; simpl; [reflexivity|].
  destruct (String.eqb k0 k); [discriminate|].
  intros H. rewrite IH by assumption. reflexivity.
Qed.

Lemma mutate_same {V} (d : Dict.t V) k v :
  Dict.get d k = Some v -> Dict.mutate d k v = d.
Proof.
  induction d as [|[k0 v0] d IH]; simpl; [reflexivity|].
  destruct (String.eqb k0 k).
  - intros [= ->]. reflexivity.
  - intros H. rewrite IH by assumption. reflexivity.
Qed.

Lemma mutate_twice {V} (d : Dict.t V) k v v' :
  Dict.mutate (Dict.mutate d k v) k v' = Dict.mutate d k v'.
Proof.
  induction d as [|[k0 v0] d IH]; simpl; [reflexivity|].
  destruct (String.eqb k0 k) eqn:E; simpl; rewrite E; congruence.
Qed.

Lemma keys_mutate {V} (d : Dict.t V) k v :
  Dict.keys (Dict.mutate d k v) = Dict.keys d.
Proof.
  unfold Dict.keys.
  induction d as [|[k0 v0] d IH]; simpl; [reflexivity|].
  destruct (String.eqb k0 k); simpl; congruence.
Qed.

Lemma get_set_same {V} (d : Dict.t V) k v :
  Dict.get (Dict.set d k v) k = Some v.
Proof.
  induction d as [|[k0 v0] d IH]; simpl.
  - rewrite String.eqb_refl. reflexivity.
  - destruct (String.eqb k0 k) eqn:E; simpl; rewrite E; auto.
Qed.

Lemma get_set_other {V} (d : Dict.t V) k k' v :
  k' <> k -> Dict.get (Dict.set d k v) k' = Dict.get d k'.
Proof.
  intros Hne. induction d as [|[k0 v0] d IH]; simpl.
  - destruct (String.eqb k k') eqn:E; [|reflexivity].
    apply String.eqb_eq in E. congruence.
  - destruct (String.eqb k0 k) eqn:E; simpl.
    + apply String.eqb_eq in E. subst k0.
      destruct (String.eqb k k') eqn:E'; [|reflexivity].
      apply String.eqb_eq in E'. congruence.
    + rewrite IH. reflexivity.
Qed.

End DictFacts.

(** ** Enumerations: the comparisons decide equality of members *)

Lemma OrderStatus_eqb_spec (a b : OrderStatus.t) :
  OrderStatus.eqb a b = true <-> a = b.
Proof.
  split.
  - destruct a, b; (reflexivity || (intros H; vm_compute in H; discriminate)).
  - intros ->. apply String.eqb_refl.
Qed.

Lemma PaymentStatus_eqb_spec (a b : PaymentStatus.t) :
  PaymentStatus.eqb a b = true <-> a = b.
Proof.
  split.
  - destruct a, b; (reflexivity || (intros H; vm_compute in H; discriminate)).
  - intros ->. apply String.eqb_refl.
Qed.

Lemma validate_status_passes m o e :
  validate_status m o e = None <-> Order.status o = e.
Proof.
  unfold validate_status.
  destruct (OrderStatus.eqb (Order.status o) e) eqn:E; simpl.
  - apply OrderStatus_eqb_spec in E. tauto.
  - split; [discriminate|]. intros H. apply OrderStatus_eqb_spec in H. congruence.
Qed.

Lemma validate_status_message_nonempty m o e message :
  validate_status m o e = Some message -> message <> EmptyString.
Proof.
  unfold validate_status.
  destruct (negb _); [|discriminate]. intros [= <-]. discriminate.
Qed.

(** ** One call: it fails and changes nothing, or it fires on its target *)

Section Lifecycle.

Variable fmt : FormatMode.

Lemma exec_cases (c : Call) (t : Z) (orders : Store) :
  (ok (fst (exec fmt c t orders)) = false
   /\ snd (exec fmt c t orders) = orders)
  \/ (exists o o',
        get_order orders (target c) = Some o
        /\ fires c t o o'
        /\ ok (fst (exec fmt c t orders)) = true
        /\ snd (exec fmt c t orders) = Dict.mutate orders (target c) o').
Proof.
  destruct c as [i accept|i|i a|i amount currency|i|i]; simpl.
  - unfold order_decide.
    destruct (get_order orders i) as [o|] eqn:G; [|left; auto].
    destruct (OrderStatus.eqb (Order.status o) OrderStatus.PENDING) eqn:E;
      simpl; [|left; auto].
    apply OrderStatus_eqb_spec in E.
    destruct accept; right; eexists; eexists; repeat split;
      try (constructor; exact E); reflexivity.
  - unfold order_ready.
    destruct (get_order orders i) as [o|] eqn:G; [|left; auto].
    destruct (validate_status fmt o OrderStatus.ACCEPTED) eqn:V;
      [left; auto|].
    apply validate_status_passes in V.
    right; eexists; eexists; repeat split;
      try (constructor; exact V); reflexivity.
  - unfold delivery_assign.
    destruct (get_order orders i) as [o|] eqn:G; [|left; auto].
    destruct (validate_status fmt o OrderStatus.READY) eqn:V;
      [left; auto|].
    apply validate_status_passes in V.
    destruct (Dict.get delivery_agents a) as [agent|] eqn:A; [|left; auto].
    right; eexists; eexists; repeat split;
      try (econstructor; eassumption); reflexivity.
  - unfold payment_request.
    destruct (get_order orders i) as [o|] eqn:G; [|left; auto].
    destruct (existsb _ _) eqn:E; simpl; [|left; auto].
    right; eexists; eexists; repeat split; try reflexivity.
    constructor. simpl in E. rewrite orb_false_r in E.
    apply orb_true_iff in E.
    destruct E as [E|E]; apply OrderStatus_eqb_spec in E; auto.
  - unfold order_delivered.
    destruct (get_order orders i) as [o|] eqn:G; [|left; auto].
    destruct (validate_status fmt o OrderStatus.ASSIGNED) eqn:V;
      [left; auto|].
    apply validate_status_passes in V.
    right; eexists; eexists; repeat split;
      try (constructor; exact V); reflexivity.
  - unfold order_paid.
    destruct (get_order orders i) as [o|] eqn:G; [|left; auto].
    destruct (PaymentStatus.eqb _ _) eqn:E; simpl; [|left; auto].
    apply PaymentStatus_eqb_spec in E.
    right; eexists; eexists; repeat split;
      try (constructor; exact E); reflexivity.
Qed.

End Lifecycle.

(** ** What firing does to an order *)

Ltac break_order o :=
  destruct o as [oid vid cust addr its st cat aat rat gat dat pat agt preq pst];
  cbn in *.

Lemma fires_edge c t o o' :
  fires c t o o' -> Order.status o' = Order.status o \/ edge o o'.
Proof.
  unfold edge.
  destruct 1; cbn;
    repeat match goal with
           | H : _ \/ _ |- _ => destruct H
           end; tauto.
Qed.

Lemma fires_precondition c t o o' :
  fires c t o o' -> precondition c o = true.
Proof.
  destruct 1; unfold precondition;
    repeat match goal with
           | H : _ \/ _ |- _ => destruct H
           end;
    repeat match goal with
           | H : _ = _ |- _ => rewrite H
           end; reflexivity.
Qed.

Lemma fires_well_formed c t o o' :
  well_formed o = true -> fires c t o o' -> well_formed o' = true.
Proof.
  intros W F. destruct F; break_order o; unfold well_formed in *; cbn in *;
    repeat match goal with
           | H : _ \/ _ |- _ => destruct H
           end; subst; cbn in *;
    try (destruct st; cbn in *);
    destruct aat, rat, gat, dat, pat; cbn in *; try discriminate;
    try reflexivity;
    destruct pst; cbn in *; try discriminate; reflexivity.
Qed.

Lemma requested_status o :
  well_formed o = true ->
  Order.payment_status o = PaymentStatus.REQUESTED ->
  Order.status o = OrderStatus.ASSIGNED
  \/ Order.status o = OrderStatus.DELIVERED.
Proof.
  unfold well_formed. intros W P. rewrite P in W.
  destruct (Order.status o); auto;
    rewrite ?andb_false_r in W; discriminate.
Qed.

Lemma paid_status o :
  well_formed o = true ->
  (Order.payment_status o = PaymentStatus.PAID
   <-> Order.status o = OrderStatus.PAID).
Proof.
  unfold well_formed. intros W.
  destruct (Order.status o), (Order.payment_status o);
    rewrite ?andb_false_r in W; try discriminate;
    split; intros H; try reflexivity; discriminate.
Qed.

(** Firing never touches what was given at creation. *)
Lemma fires_identity c t o o' :
  fires c t o o' ->
  Order.order_id o' = Order.order_id o
  /\ Order.vendor_id o' = Order.vendor_id o
  /\ Order.customer o' = Order.customer o
  /\ Order.address o' = Order.address o
  /\ Order.items o' = Order.items o
  /\ Order.created_at o' = Order.created_at o.
Proof. destruct 1; cbn; tauto. Qed.

(** ** Reachable stores hold well-formed orders *)

Section Reachability.

Variable fmt : FormatMode.

Lemma exec_get (c : Call) (t : Z) (orders : Store) id o :
  get_order orders id = Some o ->
  exists o',
    get_order (snd (exec fmt c t orders)) id = Some o'
    /\ (o' = o \/ (id = target c /\ fires c t o o'
                   /\ ok (fst (exec fmt c t orders)) = true)).
Proof.
  intros G.
  destruct (exec_cases fmt c t orders) as [[_ ->]|(o0 & o' & G0 & F & K & ->)].
  - exists o. auto.
  - destruct (String.eqb id (target c)) eqn:E.
    + apply String.eqb_eq in E. subst id.
      exists o'. split.
      * unfold get_order in *. eapply DictFacts.get_mutate_same; eauto.
      * right. replace o with o0 by congruence. auto.
    + apply String.eqb_neq in E. exists o. split; [|auto].
      unfold get_order. rewrite DictFacts.get_mutate_other; auto.
Qed.

Lemma exec_get_back (c : Call) (t : Z) (orders : Store) id o' :
  get_order (snd (exec fmt c t orders)) id = Some o' ->
  exists o, get_order orders id = Some o.
Proof.
  intros G.
  destruct (get_order orders id) as [o|] eqn:G0; [eauto|exfalso].
  destruct (exec_cases fmt c t orders) as [[_ E]|(o0 & o1 & G1 & _ & _ & E)];
    rewrite E in G; [congruence|].
  unfold get_order in *.
  destruct (String.eqb id (target c)) eqn:Eq.
  - apply String.eqb_eq in Eq. subst. congruence.
  - apply String.eqb_neq in Eq.
    rewrite DictFacts.get_mutate_other in G; congruence.
Qed.

Lemma store_ok_empty : store_ok [].
Proof. intros id o. discriminate. Qed.

Lemma store_ok_new_order oid t v n p a its orders :
  store_ok orders -> store_ok (snd (new_order oid t v n p a its orders)).
Proof.
  intros W id o. unfold new_order, get_order. cbn.
  destruct (String.eqb id oid) eqn:E.
  - apply String.eqb_eq in E. subst.
    rewrite DictFacts.get_set_same. intros [= <-]. reflexivity.
  - apply String.eqb_neq in E.
    rewrite DictFacts.get_set_other by assumption. apply W.
Qed.

Lemma store_ok_exec c t orders :
  store_ok orders -> store_ok (snd (exec fmt c t orders)).
Proof.
  intros W id o' G'.
  destruct (exec_get_back c t orders id o' G') as [o G].
  destruct (exec_get c t orders id o G) as (o1 & G1 & [->|(_ & F & _)]).
  - replace o' with o by congruence. eauto.
  - replace o' with o1 by congruence. eapply fires_well_formed; eauto.
Qed.

Lemma store_ok_event e orders :
  store_ok orders -> store_ok (apply_event fmt orders e).
Proof.
  destruct e; cbn [apply_event].
  - apply store_ok_new_order.
  - apply store_ok_exec.
  - trivial.
Qed.

Lemma store_ok_run events orders :
  store_ok orders -> store_ok (run fmt events orders).
Proof.
  revert orders. unfold run.
  induction events as [|e events IH]; intros orders W; cbn; [assumption|].
  apply IH. apply store_ok_event. assumption.
Qed.

Lemma reachable_ok orders : reachable fmt orders -> store_ok orders.
Proof.
  intros [events <-]. apply store_ok_run. apply store_ok_empty.
Qed.

Lemma run_app ev1 ev2 orders :
  run fmt (ev1 ++ ev2) orders = run fmt ev2 (run fmt ev1 orders).
Proof. unfold run. apply fold_left_app. Qed.

Lemma reachable_run events orders :
  reachable fmt orders -> reachable fmt (run fmt events orders).
Proof.
  intros [ev0 <-]. exists (ev0 ++ events)%list. apply run_app.
Qed.

End Reachability.

(** ** The lifecycle graph (C1) *)

Section Graph.

Variable fmt : FormatMode.

(** A call on a stored order succeeds exactly when the precondition of
    the operations table holds. *)
Lemma exec_ok_precondition (c : Call) (t : Z) (orders : Store) o :
  get_order orders (target c) = Some o ->
  ok (fst (exec fmt c t orders)) = precondition c o.
Proof.
  intros G.
  destruct c as [i accept|i|i a|i amount currency|i|i];
    cbn [exec target precondition] in *;
    unfold order_decide, order_ready, delivery_assign, payment_request,
           order_delivered, order_paid, validate_status;
    rewrite G.
  - destruct (Order.status o), accept; reflexivity.
  - destruct (Order.status o); reflexivity.
  - destruct (Dict.get delivery_agents a), (Order.status o); reflexivity.
  - destruct (Order.status o); reflexivity.
  - destruct (Order.status o); reflexivity.
  - destruct (Order.payment_status o); reflexivity.
Qed.

Lemma exec_failure_unchanged (c : Call) (t : Z) (orders : Store) :
  ok (fst (exec fmt c t orders)) = false ->
  snd (exec fmt c t orders) = orders.
Proof.
  intros K.
  destruct (exec_cases fmt c t orders) as [[_ E]|(o & o' & _ & _ & K' & _)];
    congruence.
Qed.

(** No call mutates an order that is Rejected or Paid. *)
Lemma terminal_step (c : Call) (t : Z) (orders : Store) id o :
  store_ok orders ->
  get_order orders id = Some o ->
  Order.status o = OrderStatus.REJECTED \/ Order.status o = OrderStatus.PAID ->
  get_order (snd (exec fmt c t orders)) id = Some o.
Proof.
  intros W G T.
  destruct (exec_get fmt c t orders id o G) as (o' & G' & [->|(_ & F & _)]);
    [assumption|exfalso].
  apply fires_precondition in F.
  specialize (W id o G). unfold well_formed in W.
  destruct c; cbn in F;
    destruct T as [T|T]; rewrite T in *; cbn in *;
    try discriminate;
    destruct (Order.payment_status o); try discriminate;
    rewrite ?andb_false_r in W; discriminate.
Qed.

Lemma terminal_run (calls : list (Call * Z)) (orders : Store) id o :
  store_ok orders ->
  get_order orders id = Some o ->
  Order.status o = OrderStatus.REJECTED \/ Order.status o = OrderStatus.PAID ->
  get_order (run fmt (map (fun ct => Invoke (fst ct) (snd ct)) calls) orders)
            id = Some o.
Proof.
  revert orders.
  induction calls as [|[c t] calls IH]; intros orders W G T; cbn;
    [assumption|].
  apply IH; auto using store_ok_exec, terminal_step.
Qed.

End Graph.

(** C1. Whatever lifecycle call is made on whatever store: every stored
    order keeps its status or moves along an edge of the lifecycle graph,
    and orders other than the target are untouched; the call succeeds
    exactly when the precondition of the operations table holds for its
    target (status and, for assign, the agent lookup), and a failed call
    returns an error and leaves the whole store as it was; in a reachable
    store the payment edge starts at Assigned or Delivered (only such
    orders have payment_status Requested), and an order that is Rejected
    or Paid stays exactly as it is under the call, and under every
    further sequence of lifecycle calls. *)
Theorem status_follows_lifecycle_graph
    (fmt : FormatMode) (c : Call) (t : Z) (orders : Store) :
  let r := fst (exec fmt c t orders) in
  let orders' := snd (exec fmt c t orders) in
  (forall id o, get_order orders id = Some o ->
     exists o', get_order orders' id = Some o'
                /\ (Order.status o' = Order.status o \/ edge o o')
                /\ (id <> target c -> o' = o))
  /\ (forall o, get_order orders (target c) = Some o ->
        ok r = precondition c o)
  /\ (ok r = false -> orders' = orders)
  /\ (reachable fmt orders ->
      forall id o, get_order orders id = Some o ->
        (Order.payment_status o = PaymentStatus.REQUESTED ->
         Order.status o = OrderStatus.ASSIGNED
         \/ Order.status o = OrderStatus.DELIVERED)
        /\ (Order.status o = OrderStatus.REJECTED
            \/ Order.status o = OrderStatus.PAID ->
            get_order orders' id = Some o
            /\ forall calls : list (Call * Z),
                 get_order
                   (run fmt (map (fun ct => Invoke (fst ct) (snd ct)) calls)
                        orders)
                   id = Some o)).
Proof.
  cbv zeta. split; [|split; [|split]].
  - intros id o G.
    destruct (exec_get fmt c t orders id o G) as (o' & G' & [->|(E & F & _)]).
    + exists o. auto.
    + exists o'. split; [assumption|]. split; [|congruence].
      eapply fires_edge; eassumption.
  - intros o G. apply exec_ok_precondition. assumption.
  - apply exec_failure_unchanged.
  - intros R id o G. apply (reachable_ok fmt) in R. split.
    + apply requested_status. apply (R id o G).
    + intros T. split.
      * apply terminal_step; assumption.
      * intros calls. apply terminal_run; assumption.
Qed.

Lemma sample_reachable n : reachable format_value (sample_store n).
Proof. exists (firstn n sample_events). reflexivity. Qed.

(** The graph theorem at the end of the sample run: the first order is
    Paid and a further confirmation leaves it as it is; the second is
    Rejected, and accepting it now fails. *)
Lemma status_follows_lifecycle_graph_witness :
  get_order
    (snd (exec format_value (ConfirmPayment "a1b2c3d4") 2000 (sample_store 9)))
    "a1b2c3d4"
  = get_order (sample_store 9) "a1b2c3d4"
  /\ ok (fst (exec format_value (Decide "e5f6a7b8" true) 2000 (sample_store 9)))
     = false.
Proof.
  split.
  - destruct (status_follows_lifecycle_graph
                format_value (ConfirmPayment "a1b2c3d4") 2000 (sample_store 9))
      as (_ & _ & _ & H).
    edestruct (H (sample_reachable 9) "a1b2c3d4") as [_ H'];
      [ vm_compute; reflexivity | ].
    destruct (H' (or_intror eq_refl)) as [H1 _].
    rewrite H1. vm_compute. reflexivity.
  - destruct (status_follows_lifecycle_graph
                format_value (Decide "e5f6a7b8" true) 2000 (sample_store 9))
      as (_ & H & _ & _).
    erewrite H; [|vm_compute; reflexivity]. reflexivity.
Defined.

(** ** Payment (C6, C9, C10) *)

(** C6. For an order present in the store, confirmPayment ([order_paid])
    succeeds if and only if the order's payment_status is Requested; on
    success the stored order has payment_status Paid, status Paid and
    paid_at equal to the clock reading, every other field as before, and
    the result reports status Paid; on failure the store is unchanged. *)
Theorem confirm_payment_iff_requested
    (id : string) (t : Z) (orders : Store) (o : Order.t) :
  get_order orders id = Some o ->
  (ok (fst (order_paid id t orders)) = true
   <-> Order.payment_status o = PaymentStatus.REQUESTED)
  /\ (Order.payment_status o = PaymentStatus.REQUESTED ->
      let o' :=
        Order.set_paid_at
          (Order.set_status
             (Order.set_payment_status o PaymentStatus.PAID)
             OrderStatus.PAID) t in
      order_paid id t orders
      = (StatusOnly OrderStatus.PAID, Dict.mutate orders id o')
      /\ get_order (snd (order_paid id t orders)) id = Some o'
      /\ Order.payment_status o' = PaymentStatus.PAID
      /\ Order.status o' = OrderStatus.PAID
      /\ Order.paid_at o' = Some t)
  /\ (Order.payment_status o <> PaymentStatus.REQUESTED ->
      ok (fst (order_paid id t orders)) = false
      /\ snd (order_paid id t orders) = orders).
Proof.
  intros G. unfold order_paid. rewrite G.
  destruct (PaymentStatus.eqb (Order.payment_status o) PaymentStatus.REQUESTED)
    eqn:E; cbn [negb fst snd ok].
  - apply PaymentStatus_eqb_spec in E. split; [tauto|]. split; [|tauto].
    intros _. cbv zeta. repeat split.
    unfold get_order in *. eapply DictFacts.get_mutate_same. eassumption.
  - assert (N : Order.payment_status o <> PaymentStatus.REQUESTED).
    { intros H. apply PaymentStatus_eqb_spec in H. congruence. }
    split; [split; [discriminate|tauto]|]. split; [tauto|]. auto.
Qed.

(** The theorem on the sample run: after the payment request the
    confirmation succeeds and stamps the order. *)
Lemma confirm_payment_iff_requested_witness :
  ok (fst (order_paid "a1b2c3d4" 1060 (sample_store 7))) = true
  /\ (exists o',
        get_order (snd (order_paid "a1b2c3d4" 1060 (sample_store 7)))
                  "a1b2c3d4" = Some o'
        /\ Order.status o' = OrderStatus.PAID
        /\ Order.paid_at o' = Some 1060%Z).
Proof.
  edestruct (confirm_payment_iff_requested "a1b2c3d4" 1060 (sample_store 7))
    as (H1 & H2 & _); [vm_compute; reflexivity|].
  split.
  - apply H1. reflexivity.
  - destruct (H2 eq_refl) as (_ & G & _ & S & P).
    eexists. split; [exact G|]. split; [exact S|exact P].
Defined.

(** C9. The amount and the currency passed to requestPayment
    ([payment_request]) have no effect: any two choices of them, the
    defaults included, give the same result and the same store; and two
    runs that differ only in the amount and currency of one payment
    request end in the same store. *)
Theorem payment_request_ignores_amount_and_currency
    (order_id : string) (amount1 amount2 : option float)
    (currency1 currency2 : string) (orders : Store) :
  payment_request order_id amount1 currency1 orders
  = payment_request order_id amount2 currency2 orders
  /\ payment_request order_id amount1 currency1 orders
     = payment_request order_id None "INR" orders
  /\ forall fmt (earlier later : list Event) (t : Z),
       run fmt (earlier
                ++ Invoke (RequestPayment order_id amount1 currency1) t
                   :: later)%list orders
       = run fmt (earlier
                  ++ Invoke (RequestPayment order_id amount2 currency2) t
                     :: later)%list orders.
Proof.
  split; [reflexivity|]. split; [reflexivity|].
  intros fmt earlier later t. unfold run.
  rewrite !fold_left_app. reflexivity.
Qed.

Lemma payment_request_success
    (order_id : string) (amount : option float) (currency : string)
    (orders : Store) (o : Order.t) :
  get_order orders order_id = Some o ->
  Order.status o = OrderStatus.ASSIGNED
  \/ Order.status o = OrderStatus.DELIVERED ->
  payment_request order_id amount currency orders
  = (PaymentRequestSent ("Payment request sent for order " ++ order_id ++ "."),
     Dict.mutate orders order_id
       (Order.set_payment_status o PaymentStatus.REQUESTED)).
Proof.
  intros G S. unfold payment_request. rewrite G.
  destruct S as [-> | ->]; reflexivity.
Qed.

(** C10. requestPayment is idempotent on success: on an order that is
    Assigned or Delivered the first call succeeds, returns the message
    that the payment request was sent, and leaves the stored order with
    payment_status Requested and its status as it was; a second call
    right after it succeeds too, returns the same result and leaves the
    store exactly as the first call left it, the order still stored with
    payment_status Requested. *)
Theorem payment_request_idempotent
    (order_id : string) (amount amount' : option float)
    (currency currency' : string) (orders : Store) (o : Order.t) :
  get_order orders order_id = Some o ->
  Order.status o = OrderStatus.ASSIGNED
  \/ Order.status o = OrderStatus.DELIVERED ->
  let first := payment_request order_id amount currency orders in
  let second := payment_request order_id amount' currency' (snd first) in
  ok (fst first) = true
  /\ ok (fst second) = true
  /\ fst second = fst first
  /\ snd second = snd first
  /\ get_order (snd first) order_id
     = Some (Order.set_payment_status o PaymentStatus.REQUESTED)
  /\ fst first
     = PaymentRequestSent
         ("Payment request sent for order " ++ order_id ++ ".")
  /\ (exists o1,
        get_order (snd first) order_id = Some o1
        /\ Order.payment_status o1 = PaymentStatus.REQUESTED
        /\ Order.status o1 = Order.status o
        /\ same_given o o1)
  /\ (exists o2,
        get_order (snd second) order_id = Some o2
        /\ Order.payment_status o2 = PaymentStatus.REQUESTED
        /\ Order.status o2 = Order.status o).
Proof.
  intros G S. cbv zeta.
  rewrite (payment_request_success order_id amount currency orders o G S).
  cbn [fst snd].
  assert (G1 : get_order (Dict.mutate orders order_id
                            (Order.set_payment_status o PaymentStatus.REQUESTED))
                         order_id
               = Some (Order.set_payment_status o PaymentStatus.REQUESTED)).
  { unfold get_order in *. eapply DictFacts.get_mutate_same. eassumption. }
  rewrite (payment_request_success order_id amount' currency' _ _ G1 S).
  cbn [fst snd ok]. rewrite DictFacts.mutate_twice.
  split; [reflexivity|]. split; [reflexivity|]. split; [reflexivity|].
  split; [reflexivity|]. split; [assumption|]. split; [reflexivity|].
  split; eexists; (split; [exact G1|]); repeat split.
Qed.

(** On the sample run: the delivered order, requested twice, is stored
    with payment_status Requested and the two calls agree. *)
Lemma payment_request_idempotent_witness :
  fst (payment_request "a1b2c3d4" (Some 50%float) "USD"
         (snd (payment_request "a1b2c3d4" None "INR" (sample_store 6))))
  = fst (payment_request "a1b2c3d4" None "INR" (sample_store 6))
  /\ snd (payment_request "a1b2c3d4" (Some 50%float) "USD"
            (snd (payment_request "a1b2c3d4" None "INR" (sample_store 6))))
     = snd (payment_request "a1b2c3d4" None "INR" (sample_store 6))
  /\ exists o2,
       get_order
         (snd (payment_request "a1b2c3d4" (Some 50%float) "USD"
                 (snd (payment_request "a1b2c3d4" None "INR"
                                       (sample_store 6)))))
         "a1b2c3d4" = Some o2
       /\ Order.payment_status o2 = PaymentStatus.REQUESTED
       /\ Order.status o2 = OrderStatus.DELIVERED.
Proof.
  edestruct (payment_request_idempotent
               "a1b2c3d4" None (Some 50%float) "INR" "USD" (sample_store 6))
    as (_ & _ & R & St & _ & _ & _ & o2 & G2 & P2 & S2);
    [ vm_compute; reflexivity | right; reflexivity | ].
  split; [exact R|]. split; [exact St|].
  exists o2. split; [exact G2|]. split; [exact P2|exact S2].
Defined.

(** ** Payment status and timestamps along a run (C5, C7) *)

Lemma fires_payment_status c t o o' :
  well_formed o = true ->
  fires c t o o' ->
  Order.payment_status o' <> Order.payment_status o ->
  ((exists i amount currency, c = RequestPayment i amount currency)
   /\ Order.payment_status o = PaymentStatus.UNREQUESTED
   /\ Order.payment_status o' = PaymentStatus.REQUESTED
   /\ (Order.status o = OrderStatus.ASSIGNED
       \/ Order.status o = OrderStatus.DELIVERED))
  \/ ((exists i, c = ConfirmPayment i)
      /\ Order.payment_status o = PaymentStatus.REQUESTED
      /\ Order.payment_status o' = PaymentStatus.PAID).
Proof.
  intros W F. inversion F; subst; cbn; try congruence; intros N.
  - left. split; [eauto|]. split; [|auto].
    unfold well_formed in W.
    destruct (Order.payment_status o); try congruence;
      destruct H as [H|H]; rewrite H in W;
      rewrite ?andb_false_r in W; discriminate.
  - right. eauto.
Qed.

Lemma fires_stamps c t o o' (k : Stamp) :
  well_formed o = true ->
  fires c t o o' ->
  (sets c = Some k -> stamp_of k o = None /\ stamp_of k o' = Some t)
  /\ (sets c <> Some k -> stamp_of k o' = stamp_of k o).
Proof.
  intros W F. unfold well_formed in W.
  destruct F; break_order o;
    repeat match goal with
           | H : _ \/ _ |- _ => destruct H
           end; subst; cbn in *;
    (split; [intros [= <-]; cbn | destruct k; cbn; congruence]);
    try (destruct st; cbn in W);
    destruct aat, rat, gat, dat, pat; cbn in W; try discriminate; auto.
Qed.

Section Histories.

Variable fmt : FormatMode.

Lemma exec_other (c : Call) (t : Z) (orders : Store) id :
  id <> target c ->
  get_order (snd (exec fmt c t orders)) id = get_order orders id.
Proof.
  intros N.
  destruct (exec_cases fmt c t orders) as [[_ ->]|(o & o' & _ & _ & _ & ->)];
    [reflexivity|].
  unfold get_order. apply DictFacts.get_mutate_other. assumption.
Qed.

Lemma exec_target (c : Call) (t : Z) (orders : Store) o :
  get_order orders (target c) = Some o ->
  ok (fst (exec fmt c t orders)) = true ->
  exists o',
    fires c t o o'
    /\ get_order (snd (exec fmt c t orders)) (target c) = Some o'.
Proof.
  intros G K.
  destruct (exec_cases fmt c t orders) as [[K' _]|(o0 & o' & G0 & F & _ & ->)];
    [congruence|].
  exists o'. replace o with o0 by congruence. split; [assumption|].
  unfold get_order in *. eapply DictFacts.get_mutate_same. eassumption.
Qed.

(** One call, seen from one stored order's timestamps. *)
Lemma exec_stamps (c : Call) (t : Z) (orders : Store) id o :
  store_ok orders ->
  get_order orders id = Some o ->
  exists o',
    get_order (snd (exec fmt c t orders)) id = Some o'
    /\ forall k,
         (stamp_of k o' <> stamp_of k o
          <-> id = target c /\ sets c = Some k
              /\ ok (fst (exec fmt c t orders)) = true)
         /\ (stamp_of k o' <> stamp_of k o ->
             stamp_of k o = None /\ stamp_of k o' = Some t).
Proof.
  intros W G.
  destruct (String.eqb id (target c)) eqn:E.
  - apply String.eqb_eq in E. subst id.
    destruct (ok (fst (exec fmt c t orders))) eqn:K.
    + destruct (exec_target c t orders o G K) as (o' & F & G').
      exists o'. split; [assumption|]. intros k.
      destruct (fires_stamps c t o o' k (W _ _ G) F) as [Hset Hkeep].
      assert (D : sets c = Some k \/ sets c <> Some k).
      { destruct (sets c) as [k'|]; [|right; discriminate].
        destruct k, k'; (left; reflexivity) || (right; discriminate). }
      destruct D as [D|D].
      * destruct (Hset D) as [H0 H1]. rewrite H0, H1.
        split; [|auto]. split; [auto|discriminate].
      * rewrite (Hkeep D). split; [|congruence].
        split; [congruence|]. intros (_ & D' & _). congruence.
    + rewrite (exec_failure_unchanged fmt c t orders K).
      exists o. split; [assumption|]. intros k.
      split; [|congruence]. split; [congruence|].
      intros (_ & _ & K'). discriminate.
  - apply String.eqb_neq in E. exists o. rewrite exec_other by assumption.
    split; [assumption|]. intros k.
    split; [|congruence]. split; [congruence|]. intros (E' & _). congruence.
Qed.

Lemma stamps_kept_run (calls : list (Call * Z)) (orders : Store) id o :
  store_ok orders ->
  get_order orders id = Some o ->
  exists o',
    get_order (run fmt (map (fun ct => Invoke (fst ct) (snd ct)) calls) orders)
              id = Some o'
    /\ forall k x, stamp_of k o = Some x -> stamp_of k o' = Some x.
Proof.
  revert orders o.
  induction calls as [|[c t] calls IH]; intros orders o W G; cbn.
  - exists o. auto.
  - destruct (exec_stamps c t orders id o W G) as (o1 & G1 & H1).
    destruct (IH _ o1 (store_ok_exec fmt c t orders W) G1) as (o' & G' & H').
    exists o'. split; [assumption|]. intros k x Hx. apply H'.
    destruct (H1 k) as [_ Hchg].
    destruct (stamp_of k o1) as [y|] eqn:S1.
    + destruct (Z.eq_dec y x) as [->|N]; [reflexivity|].
      destruct Hchg as [Hnone _]; congruence.
    + destruct Hchg as [_ Hsome]; congruence.
Qed.

End Histories.

(** C5. In a reachable store, whenever a lifecycle call changes the
    payment_status of a stored order, either the call is requestPayment
    on that order, the status is Assigned or Delivered and payment_status
    goes from Unrequested to Requested, or the call is confirmPayment on
    that order and payment_status goes from Requested to Paid; no other
    call changes it.  Accordingly a stored order with payment_status
    Requested has status Assigned or Delivered, and payment_status is
    Paid exactly when status is Paid. *)
Theorem payment_status_changes_only_on_payment_path
    (fmt : FormatMode) (c : Call) (t : Z) (orders : Store) :
  reachable fmt orders ->
  forall id o,
    get_order orders id = Some o ->
    (Order.payment_status o = PaymentStatus.REQUESTED ->
     Order.status o = OrderStatus.ASSIGNED
     \/ Order.status o = OrderStatus.DELIVERED)
    /\ (Order.payment_status o = PaymentStatus.PAID
        <-> Order.status o = OrderStatus.PAID)
    /\ forall o',
         get_order (snd (exec fmt c t orders)) id = Some o' ->
         Order.payment_status o' <> Order.payment_status o ->
         ((exists amount currency, c = RequestPayment id amount currency)
          /\ Order.payment_status o = PaymentStatus.UNREQUESTED
          /\ Order.payment_status o' = PaymentStatus.REQUESTED
          /\ (Order.status o = OrderStatus.ASSIGNED
              \/ Order.status o = OrderStatus.DELIVERED))
         \/ (c = ConfirmPayment id
             /\ Order.payment_status o = PaymentStatus.REQUESTED
             /\ Order.payment_status o' = PaymentStatus.PAID).
Proof.
  intros R id o G. apply reachable_ok in R.
  split; [apply requested_status; eauto|].
  split; [apply paid_status; eauto|].
  intros o' G' N.
  destruct (exec_get fmt c t orders id o G) as (o1 & G1 & [->|(E & F & _)]);
    [congruence|].
  replace o1 with o' in * by congruence.
  destruct (fires_payment_status c t o o' (R _ _ G) F N)
    as [((i & a & cu & ->) & H)|((i & ->) & H)]; cbn in E; subst i.
  - left. split; [eauto|exact H].
  - right. split; [reflexivity|exact H].
Qed.

(** On the sample run: the payment request on the delivered order is
    the step that takes payment_status from Unrequested to Requested. *)
Lemma payment_status_changes_only_on_payment_path_witness :
  exists o o',
    get_order (sample_store 6) "a1b2c3d4" = Some o
    /\ get_order
         (snd (exec format_value (RequestPayment "a1b2c3d4" None "INR") 1050
                    (sample_store 6))) "a1b2c3d4" = Some o'
    /\ Order.payment_status o = PaymentStatus.UNREQUESTED
    /\ Order.payment_status o' = PaymentStatus.REQUESTED
    /\ Order.status o = OrderStatus.DELIVERED.
Proof.
  edestruct (payment_status_changes_only_on_payment_path
               format_value (RequestPayment "a1b2c3d4" None "INR") 1050
               (sample_store 6) (sample_reachable 6) "a1b2c3d4")
    as (_ & _ & H); [vm_compute; reflexivity|].
  edestruct H as [(_ & U & Rq & S)|(C & _)];
    [ vm_compute; reflexivity
    | vm_compute; discriminate
    | | discriminate C ].
  eexists. eexists.
  split; [vm_compute; reflexivity|].
  split; [vm_compute; reflexivity|].
  split; [exact U|]. split; [exact Rq|]. vm_compute. reflexivity.
Defined.

(** C7. A created order has none of accepted_at, ready_at, assigned_at,
    delivered_at, paid_at set.  In a reachable store a lifecycle call
    changes such a timestamp of a stored order exactly when it is the
    corresponding transition (accept, markReady, assign, markDelivered,
    confirmPayment) on that order and succeeds; the timestamp was unset
    before and holds the clock reading after.  A timestamp that is set
    keeps its value under every further sequence of lifecycle calls. *)
Theorem timestamps_set_once
    (fmt : FormatMode) (orders : Store) :
  (forall oid t v n p a its,
     exists o,
       get_order (snd (new_order oid t v n p a its orders)) oid = Some o
       /\ forall k, stamp_of k o = None)
  /\ (reachable fmt orders ->
      forall id o, get_order orders id = Some o ->
        (forall c t,
           exists o',
             get_order (snd (exec fmt c t orders)) id = Some o'
             /\ forall k,
                  (stamp_of k o' <> stamp_of k o
                   <-> id = target c /\ sets c = Some k
                       /\ ok (fst (exec fmt c t orders)) = true)
                  /\ (stamp_of k o' <> stamp_of k o ->
                      stamp_of k o = None /\ stamp_of k o' = Some t))
        /\ (forall calls : list (Call * Z),
              exists o',
                get_order
                  (run fmt (map (fun ct => Invoke (fst ct) (snd ct)) calls)
                       orders) id = Some o'
                /\ forall k x, stamp_of k o = Some x -> stamp_of k o' = Some x)).
Proof.
  split.
  - intros oid t v n p a its. eexists. split.
    + unfold new_order, get_order. cbn [snd]. apply DictFacts.get_set_same.
    + intros k. destruct k; reflexivity.
  - intros R id o G. apply reachable_ok in R. split.
    + intros c t. apply exec_stamps; assumption.
    + intros calls. apply stamps_kept_run; assumption.
Qed.

(** On the sample run: accepting the first seed order sets accepted_at,
    and the five later calls on it leave that value in place. *)
Lemma timestamps_set_once_witness :
  (exists o',
     get_order (snd (exec format_value (Decide "a1b2c3d4" true) 1010
                          (sample_store 2))) "a1b2c3d4" = Some o'
     /\ stamp_of accepted_at o' = Some 1010%Z)
  /\ (exists o',
        get_order (sample_store 8) "a1b2c3d4" = Some o'
        /\ stamp_of accepted_at o' = Some 1010%Z).
Proof.
  split.
  - destruct (timestamps_set_once format_value (sample_store 2)) as [_ H].
    edestruct (H (sample_reachable 2) "a1b2c3d4") as [H1 _];
      [vm_compute; reflexivity|].
    destruct (H1 (Decide "a1b2c3d4" true) 1010%Z) as (o' & G' & Hk).
    exists o'. split; [exact G'|].
    destruct (Hk accepted_at) as [Hiff Hval].
    apply Hval. apply Hiff.
    split; [reflexivity|]. split; [reflexivity|]. vm_compute. reflexivity.
  - destruct (timestamps_set_once format_value (sample_store 3)) as [_ H].
    edestruct (H (sample_reachable 3) "a1b2c3d4") as [_ H2];
      [vm_compute; reflexivity|].
    destruct (H2 [ (MarkReady "a1b2c3d4", 1020%Z);
                   (Assign "a1b2c3d4" "agent_1", 1030%Z);
                   (MarkDelivered "a1b2c3d4", 1040%Z);
                   (RequestPayment "a1b2c3d4" None "INR", 1050%Z);
                   (ConfirmPayment "a1b2c3d4", 1060%Z) ])
      as (o' & G' & Hk).
    exists o'. split; [|apply Hk; reflexivity].
    rewrite <- G'. vm_compute. reflexivity.
Defined.

(** ** Error reporting (C3, C4) *)

(** C4, as the code has it.  A call whose order id is not in the store
    fails and leaves the store unchanged.  For decide, markReady, assign,
    markDelivered and requestPayment the error is "order_not_found", and
    that error is returned for no other reason, so it is told apart from
    every invalid-state error.  confirmPayment instead returns the one
    error "Order not found or payment not requested." both for an unknown
    id and for a stored order whose payment is not in the Requested
    state. *)
Theorem unknown_order_reporting
    (fmt : FormatMode) (c : Call) (t : Z) (orders : Store) :
  (get_order orders (target c) = None ->
   ok (fst (exec fmt c t orders)) = false
   /\ snd (exec fmt c t orders) = orders)
  /\ match c with
     | ConfirmPayment _ =>
         fst (exec fmt c t orders)
         = Failure "Order not found or payment not requested."
         <-> (get_order orders (target c) = None
              \/ exists o, get_order orders (target c) = Some o
                           /\ Order.payment_status o
                              <> PaymentStatus.REQUESTED)
     | _ =>
         fst (exec fmt c t orders) = Failure "order_not_found"
         <-> get_order orders (target c) = None
     end.
Proof.
  split.
  - intros G.
    destruct c; cbn [exec target] in *;
      unfold order_decide, order_ready, delivery_assign, payment_request,
             order_delivered, order_paid;
      rewrite G; auto.
  - destruct c as [i accept|i|i a|i amount currency|i|i];
      cbn [exec target];
      unfold order_decide, order_ready, delivery_assign, payment_request,
             order_delivered, order_paid, validate_status;
      destruct (get_order orders i) as [o|] eqn:G;
      try (split; [reflexivity|intros; reflexivity]; fail).
    + destruct (Order.status o), accept, fmt; cbn;
        (split; intros H; discriminate H).
    + destruct (Order.status o), fmt; cbn;
        (split; intros H; discriminate H).
    + destruct (Dict.get delivery_agents a), (Order.status o), fmt; cbn;
        (split; intros H; discriminate H).
    + destruct (Order.status o); cbn; (split; intros H; discriminate H).
    + destruct (Order.status o), fmt; cbn;
        (split; intros H; discriminate H).
    + destruct (PaymentStatus.eqb (Order.payment_status o)
                                  PaymentStatus.REQUESTED) eqn:E;
        cbn [negb fst].
      * apply PaymentStatus_eqb_spec in E. split; [discriminate|].
        intros [H|(o0 & H & N)]; [discriminate|]. congruence.
      * split; [|reflexivity]. intros _. right. exists o. split; [reflexivity|].
        intros H. apply PaymentStatus_eqb_spec in H. congruence.
    + split; [|reflexivity]. auto.
Qed.

Lemma unknown_order_reporting_witness :
  ok (fst (exec format_member (MarkReady "ffffffff") 1 (sample_store 2)))
  = false
  /\ snd (exec format_member (MarkReady "ffffffff") 1 (sample_store 2))
     = sample_store 2.
Proof.
  destruct (unknown_order_reporting
              format_member (MarkReady "ffffffff") 1 (sample_store 2))
    as [H _].
  apply H. vm_compute. reflexivity.
Defined.

(** C4 as stated fails for confirmPayment: on the seeded store an
    unknown id and a stored order whose payment was never requested get
    the very same result. *)
Lemma confirm_payment_conflates_errors :
  get_order (sample_store 2) "ffffffff" = None
  /\ (exists o,
        get_order (sample_store 2) "a1b2c3d4" = Some o
        /\ Order.payment_status o = PaymentStatus.UNREQUESTED)
  /\ fst (order_paid "ffffffff" 1 (sample_store 2))
     = fst (order_paid "a1b2c3d4" 1 (sample_store 2))
  /\ fst (order_paid "ffffffff" 1 (sample_store 2))
     = Failure "Order not found or payment not requested.".
Proof.
  split; [vm_compute; reflexivity|].
  split; [eexists; split; vm_compute; reflexivity|].
  split; vm_compute; reflexivity.
Qed.

(** C3, as the code has it.  On a stored order that fails the status
    precondition:
    - markReady, assign and markDelivered return the message of
      [validate_status], "Order must be '<expected>', but is
      '<actual>'.", with the expected status first and the actual status
      second; it names both;
    - decide returns "Order already '<actual>'.", which names the actual
      status and not the expected one (Pending);
    - requestPayment returns the fixed text "Can only request payment
      for assigned or delivered orders.", which names the two accepted
      statuses and not the actual one;
    - confirmPayment returns the fixed text "Order not found or payment
      not requested.", which does not name the actual payment state; the
      word of the expected state, requested, occurs in it only inside
      "payment not requested".
    <expected> and <actual> are the statuses as the f-string renders
    them. *)
Theorem precondition_errors_name_states
    (fmt : FormatMode) (id : string) (t : Z) (orders : Store) (o : Order.t) :
  get_order orders id = Some o ->
  let must_be expected :=
    "Order must be '" ++ format_status fmt expected
    ++ "', but is '" ++ format_status fmt (Order.status o) ++ "'." in
  (Order.status o <> OrderStatus.ACCEPTED ->
   order_ready fmt id t orders
   = (Failure (must_be OrderStatus.ACCEPTED), orders)
   /\ names_status (must_be OrderStatus.ACCEPTED) OrderStatus.ACCEPTED = true
   /\ names_status (must_be OrderStatus.ACCEPTED) (Order.status o) = true)
  /\ (Order.status o <> OrderStatus.READY ->
      forall agent_id,
        delivery_assign fmt id agent_id t orders
        = (Failure (must_be OrderStatus.READY), orders)
        /\ names_status (must_be OrderStatus.READY) OrderStatus.READY = true
        /\ names_status (must_be OrderStatus.READY) (Order.status o) = true)
  /\ (Order.status o <> OrderStatus.ASSIGNED ->
      order_delivered fmt id t orders
      = (Failure (must_be OrderStatus.ASSIGNED), orders)
      /\ names_status (must_be OrderStatus.ASSIGNED) OrderStatus.ASSIGNED = true
      /\ names_status (must_be OrderStatus.ASSIGNED) (Order.status o) = true)
  /\ (Order.status o <> OrderStatus.PENDING ->
      let already :=
        "Order already '" ++ format_status fmt (Order.status o) ++ "'." in
      forall accept,
        order_decide fmt id accept t orders = (Failure already, orders)
        /\ names_status already (Order.status o) = true
        /\ names_status already OrderStatus.PENDING = false)
  /\ (Order.status o <> OrderStatus.ASSIGNED ->
      Order.status o <> OrderStatus.DELIVERED ->
      let only :=
        "Can only request payment for assigned or delivered orders." in
      forall amount currency,
        payment_request id amount currency orders = (Failure only, orders)
        /\ names_status only OrderStatus.ASSIGNED = true
        /\ names_status only OrderStatus.DELIVERED = true
        /\ names_status only (Order.status o) = false)
  /\ (Order.payment_status o <> PaymentStatus.REQUESTED ->
      let combined := "Order not found or payment not requested." in
      order_paid id t orders = (Failure combined, orders)
      /\ names_payment combined (Order.payment_status o) = false
      /\ mentions combined "not requested" = true
      /\ (forall s, names_status combined s = false)).
Proof.
  intros G. cbv zeta.
  unfold order_decide, order_ready, delivery_assign, payment_request,
         order_delivered, order_paid, validate_status.
  rewrite G.
  repeat match goal with |- _ /\ _ => split end.
  - intros N. destruct (Order.status o), fmt; try congruence;
      (split; [reflexivity|]); vm_compute; auto.
  - intros N a. destruct (Order.status o), fmt; try congruence;
      (split; [reflexivity|]); vm_compute; auto.
  - intros N. destruct (Order.status o), fmt; try congruence;
      (split; [reflexivity|]); vm_compute; auto.
  - intros N accept. destruct (Order.status o), fmt; try congruence;
      (split; [reflexivity|]); vm_compute; auto.
  - intros N1 N2 amount currency. destruct (Order.status o); try congruence;
      (split; [reflexivity|]); vm_compute; auto.
  - intros N. destruct (Order.payment_status o); try congruence;
      (split; [reflexivity|]); (split; [vm_compute; reflexivity|]);
      (split; [vm_compute; reflexivity|]);
      intros s; destruct s; vm_compute; reflexivity.
Qed.

(** On the seeded store: marking a pending order ready returns the
    message with the expected status first and the actual one second. *)
Lemma precondition_errors_name_states_witness :
  order_ready format_member "a1b2c3d4" 1 (sample_store 2)
  = (Failure
       "Order must be 'OrderStatus.ACCEPTED', but is 'OrderStatus.PENDING'.",
     sample_store 2)
  /\ order_ready format_value "a1b2c3d4" 1 (sample_store 2)
     = (Failure "Order must be 'accepted', but is 'pending'.",
        sample_store 2).
Proof.
  split.
  - edestruct (precondition_errors_name_states
                 format_member "a1b2c3d4" 1 (sample_store 2))
      as (H & _); [vm_compute; reflexivity|].
    destruct H as (E & _); [vm_compute; discriminate|].
    rewrite E. vm_compute. reflexivity.
  - edestruct (precondition_errors_name_states
                 format_value "a1b2c3d4" 1 (sample_store 2))
      as (H & _); [vm_compute; reflexivity|].
    destruct H as (E & _); [vm_compute; discriminate|].
    rewrite E. vm_compute. reflexivity.
Defined.

(** C3 as stated fails: deciding an order that is already accepted
    returns a message that does not name the expected state, Pending,
    under either rendering of the status; and a payment request on a
    pending order returns a message that does not name the actual
    state. *)
Lemma decide_error_omits_expected_state :
  fst (order_decide format_value "a1b2c3d4" true 1 (sample_store 3))
  = Failure "Order already 'accepted'."
  /\ names_status "Order already 'accepted'." OrderStatus.PENDING = false
  /\ fst (order_decide format_member "a1b2c3d4" true 1 (sample_store 3))
     = Failure "Order already 'OrderStatus.ACCEPTED'."
  /\ names_status "Order already 'OrderStatus.ACCEPTED'." OrderStatus.PENDING
     = false
  /\ fst (payment_request "a1b2c3d4" None "INR" (sample_store 2))
     = Failure "Can only request payment for assigned or delivered orders."
  /\ names_status "Can only request payment for assigned or delivered orders."
                  OrderStatus.PENDING = false.
Proof. repeat split; vm_compute; reflexivity. Qed.

(** ** Listing (C8) *)

Section StableSort.

Context {A : Type} (key : A -> Z).

Lemma insert_desc_perm x l : Permutation (insert_desc key x l) (x :: l).
Proof.
  induction l as [|y l IH]; cbn; [reflexivity|].
  destruct (key y <=? key x)%Z; [reflexivity|].
  rewrite IH. apply perm_swap.
Qed.

Lemma sort_desc_perm l : Permutation (sort_desc key l) l.
Proof.
  induction l as [|x l IH]; cbn; [reflexivity|].
  rewrite insert_desc_perm. constructor. assumption.
Qed.

Lemma insert_desc_descending x l :
  descending key l -> descending key (insert_desc key x l).
Proof.
  unfold descending. induction 1 as [|y l Hl IH Hy]; cbn.
  - repeat constructor.
  - destruct (key y <=? key x)%Z eqn:E.
    + apply Z.leb_le in E. constructor; [constructor; assumption|].
      constructor; [assumption|].
      eapply Forall_impl; [|exact Hy]. cbn. intros; lia.
    + apply Z.leb_gt in E. constructor; [assumption|].
      eapply Permutation_Forall; [symmetry; apply insert_desc_perm|].
      constructor; [lia|assumption].
Qed.

Lemma sort_desc_descending l : descending key (sort_desc key l).
Proof.
  induction l as [|x l IH]; cbn; [constructor|].
  apply insert_desc_descending. assumption.
Qed.

(** Insertion puts [x] ahead of its ties and moves nothing else. *)
Lemma ties_insert_desc k x l :
  ties key k (insert_desc key x l) = ties key k (x :: l).
Proof.
  unfold ties. induction l as [|y l IH]; [reflexivity|].
  cbn [insert_desc]. destruct (key y <=? key x)%Z eqn:E; [reflexivity|].
  apply Z.leb_gt in E. cbn [filter] in *. rewrite IH.
  destruct (key x =? k)%Z eqn:Ex; [|reflexivity].
  apply Z.eqb_eq in Ex.
  assert (Ey : (key y =? k)%Z = false) by (apply Z.eqb_neq; lia).
  rewrite Ey. reflexivity.
Qed.

Lemma ties_sort_desc k l : ties key k (sort_desc key l) = ties key k l.
Proof.
  induction l as [|x l IH]; [reflexivity|].
  cbn [sort_desc]. rewrite ties_insert_desc.
  unfold ties in *. cbn [filter]. rewrite IH. reflexivity.
Qed.

Lemma sort_desc_stable l : stable_descending key l (sort_desc key l).
Proof. split; [apply sort_desc_descending|intros; apply ties_sort_desc]. Qed.

Lemma ties_head x l : ties key (key x) (x :: l) = x :: ties key (key x) l.
Proof. unfold ties. cbn. rewrite Z.eqb_refl. reflexivity. Qed.

Lemma ties_skip k x l : key x <> k -> ties key k (x :: l) = ties key k l.
Proof.
  intros N. unfold ties. cbn.
  destruct (key x =? k)%Z eqn:E; [|reflexivity].
  apply Z.eqb_eq in E. contradiction.
Qed.

Lemma ties_In k x l : In x (ties key k l) -> In x l /\ key x = k.
Proof.
  unfold ties. rewrite filter_In. intros [H E].
  apply Z.eqb_eq in E. auto.
Qed.

Lemma descending_head x l y :
  descending key (x :: l) -> In y l -> (key y <= key x)%Z.
Proof.
  intros D H. apply StronglySorted_inv in D. destruct D as [_ F].
  rewrite Forall_forall in F. auto.
Qed.

(** Two descending lists with the same ties at every key are equal:
    there is one stable descending sort of a list, whatever the
    algorithm. *)
Lemma same_ties_equal l1 :
  forall l2,
    descending key l1 -> descending key l2 ->
    (forall k, ties key k l1 = ties key k l2) ->
    l1 = l2.
Proof.
  induction l1 as [|x l1 IH]; intros l2 D1 D2 T.
  - destruct l2 as [|y l2]; [reflexivity|].
    specialize (T (key y)). rewrite ties_head in T. discriminate.
  - destruct l2 as [|y l2].
    + specialize (T (key x)). rewrite ties_head in T. discriminate.
    + assert (E : key x = key y).
      { destruct (Z.eq_dec (key x) (key y)) as [E|N]; [assumption|exfalso].
        assert (Hx : In x l2).
        { pose proof (T (key x)) as Tx.
          rewrite ties_head, (ties_skip (key x) y) in Tx by congruence.
          apply (ties_In (key x)). rewrite <- Tx. left. reflexivity. }
        assert (Hy : In y l1).
        { pose proof (T (key y)) as Ty.
          rewrite ties_head, (ties_skip (key y) x) in Ty by congruence.
          apply (ties_In (key y)). rewrite Ty. left. reflexivity. }
        pose proof (descending_head _ _ _ D2 Hx).
        pose proof (descending_head _ _ _ D1 Hy). lia. }
      assert (Exy : x = y).
      { pose proof (T (key x)) as Tx. rewrite ties_head in Tx.
        rewrite E in Tx at 2. rewrite ties_head in Tx. congruence. }
      subst y. f_equal.
      apply IH.
      * apply StronglySorted_inv in D1. tauto.
      * apply StronglySorted_inv in D2. tauto.
      * intros k. specialize (T k). unfold ties in *. cbn [filter] in T.
        destruct (key x =? k)%Z; congruence.
Qed.

Lemma stable_descending_unique l s1 s2 :
  stable_descending key l s1 -> stable_descending key l s2 -> s1 = s2.
Proof.
  intros [D1 T1] [D2 T2]. apply same_ties_equal; try assumption.
  intros k. rewrite T1, T2. reflexivity.
Qed.

Lemma descending_filter p l :
  descending key l -> descending key (filter p l).
Proof.
  unfold descending. induction 1 as [|x l Hl IH Hx]; cbn; [constructor|].
  destruct (p x); [|assumption].
  constructor; [assumption|].
  rewrite Forall_forall in *. intros y Hy. apply filter_In in Hy.
  apply Hx. tauto.
Qed.

Lemma ties_filter p k l : ties key k (filter p l) = filter p (ties key k l).
Proof.
  unfold ties. induction l as [|x l IH]; cbn; [reflexivity|].
  destruct (p x) eqn:P, (key x =? k)%Z eqn:K; cbn;
    rewrite ?P, ?K, IH; reflexivity.
Qed.

(** Sorting a selection is selecting from the sorted list. *)
Lemma sort_desc_filter p l :
  sort_desc key (filter p l) = filter p (sort_desc key l).
Proof.
  apply (stable_descending_unique (filter p l)).
  - apply sort_desc_stable.
  - split.
    + apply descending_filter. apply sort_desc_descending.
    + intros k. rewrite !ties_filter, ties_sort_desc. reflexivity.
Qed.

End StableSort.

Lemma filter_twice {A} (p q : A -> bool) l :
  filter q (filter p l) = filter (fun a => p a && q a) l.
Proof.
  induction l as [|x l IH]; cbn; [reflexivity|].
  destruct (p x); cbn; [destruct (q x)|]; rewrite IH; reflexivity.
Qed.

(** The listing is the stable newest-first sort of the wanted orders. *)
Lemma orders_list_eq vendor_id status_filter (orders : Store) :
  orders_list vendor_id status_filter orders
  = (let result :=
       sort_desc Order.created_at
         (filter (wanted vendor_id status_filter) (Dict.values orders)) in
     (Listing result (List.length result), orders)).
Proof.
  unfold orders_list. cbv zeta.
  assert (E : (if truthy status_filter
               then filter (fun o => match status_filter with
                                     | Some f => OrderStatus.eqb_str (Order.status o) f
                                     | None => false
                                     end)
                      (filter (fun o => String.eqb (Order.vendor_id o) vendor_id)
                              (Dict.values orders))
               else filter (fun o => String.eqb (Order.vendor_id o) vendor_id)
                           (Dict.values orders))
              = filter (wanted vendor_id status_filter) (Dict.values orders)).
  { destruct status_filter as [[|ch f]|]; cbn [truthy].
    - apply filter_ext. intros o. unfold wanted. rewrite andb_true_r. reflexivity.
    - rewrite filter_twice. apply filter_ext. intros o. reflexivity.
    - apply filter_ext. intros o. unfold wanted. rewrite andb_true_r. reflexivity. }
  rewrite E. reflexivity.
Qed.

(** C8, as the code has it.  [orders_list] leaves the store unchanged
    and never fails: it returns the orders of the store whose vendor_id
    is the requested one and, under a status filter that is not the empty
    string, whose status is the one the filter spells; an absent filter
    and the empty string both select by vendor alone.  The result is
    sorted by created_at descending with ties in insertion order, its
    count is its length, it is the empty list when no order is wanted,
    and the filtered listing is exactly the part of the unfiltered
    listing that has the status. *)
Theorem orders_list_contract
    (vendor_id : string) (status_filter : option string) (orders : Store) :
  let wanted_orders :=
    filter (wanted vendor_id status_filter) (Dict.values orders) in
  snd (orders_list vendor_id status_filter orders) = orders
  /\ exists result,
       fst (orders_list vendor_id status_filter orders)
       = Listing result (List.length result)
       /\ (forall o, In o result
                     <-> In o (Dict.values orders)
                         /\ wanted vendor_id status_filter o = true)
       /\ Permutation result wanted_orders
       /\ newest_first result
       /\ (forall k, created_in k result = created_in k wanted_orders)
       /\ (wanted_orders = [] <-> result = [])
       /\ exists unfiltered,
            fst (orders_list vendor_id None orders)
            = Listing unfiltered (List.length unfiltered)
            /\ result = filter (wanted vendor_id status_filter) unfiltered.
Proof.
  cbv zeta. rewrite !orders_list_eq. cbv zeta. cbn [fst snd].
  split; [reflexivity|].
  eexists. split; [reflexivity|].
  split; [|split; [|split; [|split; [|split]]]].
  - intros o. rewrite <- filter_In.
    split; apply Permutation_in;
      [|symmetry]; apply sort_desc_perm.
  - apply sort_desc_perm.
  - apply sort_desc_descending.
  - intros k. apply ties_sort_desc.
  - split.
    + intros ->. reflexivity.
    + intros E. apply Permutation_nil. rewrite <- E.
      apply sort_desc_perm.
  - eexists. split; [reflexivity|].
    rewrite <- sort_desc_filter. f_equal.
    rewrite filter_twice. apply filter_ext. intros o. unfold wanted.
    rewrite andb_true_r.
    destruct (String.eqb (Order.vendor_id o) vendor_id); reflexivity.
Qed.

(** On the seeded store: both demo orders belong to vendor_1 and were
    created in the same second; the pending listing returns them in
    insertion order. *)
Lemma orders_list_contract_witness :
  exists o1 o2,
    fst (orders_list "vendor_1" (Some "pending") (sample_store 2))
    = Listing [o1; o2] 2
    /\ Order.order_id o1 = "a1b2c3d4"
    /\ Order.order_id o2 = "e5f6a7b8"
    /\ In o1 (Dict.values (sample_store 2)).
Proof.
  destruct (orders_list_contract "vendor_1" (Some "pending") (sample_store 2))
    as (_ & result & E & M & _).
  vm_compute in E. injection E as <- _.
  eexists. eexists. split; [vm_compute; reflexivity|].
  split; [reflexivity|]. split; [reflexivity|].
  refine (proj1 (proj1 (M _) _)). left. reflexivity.
Defined.

(** C8 as stated fails when the filter passed is the empty string: no
    order has the status the filter spells, yet the listing returns both
    orders of the vendor. *)
Lemma empty_status_filter_selects_all :
  filter (wanted_as_specified "vendor_1" (Some ""))
         (Dict.values (sample_store 2)) = []
  /\ exists o1 o2,
       fst (orders_list "vendor_1" (Some "") (sample_store 2))
       = Listing [o1; o2] 2
       /\ Order.status o1 = OrderStatus.PENDING
       /\ Order.status o2 = OrderStatus.PENDING.
Proof.
  split; [vm_compute; reflexivity|].
  eexists. eexists. split; [vm_compute; reflexivity|].
  split; reflexivity.
Qed.

(** ** Creation and the items of an order (C2) *)

Section IntakeFacts.

Variable py_strip : string -> string.
Variable py_lower : string -> string.
Variable py_float : string -> option float.
Variable class_timestamp : string.



End IntakeFacts.




(** ** The sample run, step by step *)

Example sample_ready_offers_agents :
  fst (order_ready format_value "a1b2c3d4" 1020 (sample_store 3))
  = MadeReady OrderStatus.READY
              "Order a1b2c3d4 is ready. Choose a delivery agent."
              [("agent_1", "Sam"); ("agent_2", "Asha"); ("agent_3", "Raj")].
Proof. vm_compute. reflexivity. Qed.

Example sample_unknown_agent :
  delivery_assign format_value "a1b2c3d4" "unknown_agent" 1030 (sample_store 4)
  = (Failure "agent_not_found", sample_store 4).
Proof. vm_compute. reflexivity. Qed.

Example sample_assign_message :
  fst (delivery_assign format_value "a1b2c3d4" "agent_1" 1030 (sample_store 4))
  = AgentAssigned OrderStatus.ASSIGNED
      "Agent Sam assigned to order a1b2c3d4."
      "Please pick up order a1b2c3d4 and deliver to Neha at 221B Baker St.".
Proof. vm_compute. reflexivity. Qed.

Example sample_decide_twice :
  order_decide format_value "a1b2c3d4" false 1011 (sample_store 3)
  = (Failure "Order already 'accepted'.", sample_store 3).
Proof. vm_compute. reflexivity. Qed.

Example sample_wrong_state_message :
  fst (order_delivered format_member "e5f6a7b8" 1080 (sample_store 9))
  = Failure
      "Order must be 'OrderStatus.ASSIGNED', but is 'OrderStatus.REJECTED'.".
Proof. vm_compute. reflexivity. Qed.

Example sample_final_statuses :
  map (fun o => (Order.order_id o, Order.status o, Order.payment_status o,
                 Order.delivered_at o, Order.paid_at o))
      (Dict.values (sample_store 9))
  = [ ("a1b2c3d4", OrderStatus.PAID, PaymentStatus.PAID,
       Some 1040%Z, Some 1060%Z);
      ("e5f6a7b8", OrderStatus.REJECTED, PaymentStatus.UNREQUESTED,
       None, None) ].
Proof. vm_compute. reflexivity. Qed.

Example sample_seed_is_two_creations :
  seed "a1b2c3d4" 1000 "e5f6a7b8" 1000 = sample_store 2.
Proof. vm_compute. reflexivity. Qed.

Example sample_out_of_stock :
  fst (sample_place_order "Asha" "+919876543210" "1kg squid" "" [])
  = Raised (McpError INVALID_PARAMS
              (cross_mark ++ " 'Squid' is out of stock")).
Proof. vm_compute. reflexivity. Qed.

Example sample_no_quantity :
  fst (sample_place_order "Asha" "+919876543210" "prawns" "" [])
  = Raised ValueError.
Proof. vm_compute. reflexivity. Qed.

(** * Further properties of the lifecycle store *)

(** ** What lifecycle calls leave alone *)

Section Preserved.

Variable fmt : FormatMode.
Variable R : Order.t -> Order.t -> Prop.
Hypothesis R_refl : forall o, R o o.
Hypothesis R_trans : forall a b c, R a b -> R b c -> R a c.
Hypothesis R_fires : forall c t o o', fires c t o o' -> R o o'.

Lemma preserved_exec (c : Call) (t : Z) (orders : Store) id o :
  get_order orders id = Some o ->
  exists o', get_order (snd (exec fmt c t orders)) id = Some o' /\ R o o'.
Proof.
  intros G.
  destruct (exec_get fmt c t orders id o G) as (o' & G' & [E|(_ & F & _)]);
    exists o'; subst; eauto.
Qed.

Lemma preserved_run (calls : list (Call * Z)) (orders : Store) id o :
  get_order orders id = Some o ->
  exists o',
    get_order (run fmt (invoke_all calls) orders) id = Some o' /\ R o o'.
Proof.
  revert orders o.
  induction calls as [|[c t] calls IH]; intros orders o G; cbn.
  - exists o. auto.
  - destruct (preserved_exec c t orders id o G) as (o1 & G1 & R1).
    destruct (IH _ o1 G1) as (o' & G' & R').
    exists o'. eauto.
Qed.

End Preserved.

Lemma fires_same_given c t o o' : fires c t o o' -> same_given o o'.
Proof. destruct 1; repeat split. Qed.

(** X1. No sequence of lifecycle calls changes what an order was
    created with: order_id, vendor_id, customer, address, items and
    created_at of every stored order stay as they are, and so does the
    payment_requested flag. *)
Theorem given_fields_never_change
    (fmt : FormatMode) (calls : list (Call * Z)) (orders : Store)
    (id : string) (o : Order.t) :
  get_order orders id = Some o ->
  exists o',
    get_order (run fmt (invoke_all calls) orders) id = Some o'
    /\ same_given o o'.
Proof.
  apply preserved_run.
  - intros x. repeat split.
  - unfold same_given. intros a b c H1 H2.
    decompose [and] H1. decompose [and] H2. repeat split; congruence.
  - apply fires_same_given.
Qed.

Lemma given_fields_never_change_witness :
  exists o',
    get_order
      (run format_value
         (invoke_all [ (Decide "a1b2c3d4" true, 1010%Z);
                       (MarkReady "a1b2c3d4", 1020%Z);
                       (Assign "a1b2c3d4" "agent_1", 1030%Z) ])
         (sample_store 2)) "a1b2c3d4" = Some o'
    /\ Order.items o' = [Item.mk "chai" 2]
    /\ Order.created_at o' = 1000%Z.
Proof.
  edestruct (given_fields_never_change format_value
               [ (Decide "a1b2c3d4" true, 1010%Z);
                 (MarkReady "a1b2c3d4", 1020%Z);
                 (Assign "a1b2c3d4" "agent_1", 1030%Z) ]
               (sample_store 2) "a1b2c3d4")
    as (o' & G & S); [vm_compute; reflexivity|].
  exists o'. split; [exact G|].
  destruct S as (_ & _ & _ & _ & I & C & _). split; [exact I|exact C].
Defined.

Lemma exec_keys fmt (c : Call) (t : Z) (orders : Store) :
  Dict.keys (snd (exec fmt c t orders)) = Dict.keys orders.
Proof.
  destruct (exec_cases fmt c t orders) as [[_ ->]|(o & o' & _ & _ & _ & ->)];
    [reflexivity|apply DictFacts.keys_mutate].
Qed.

(** X2. Lifecycle calls and listings never add, remove or reorder
    entries of the store: after any sequence of them the store has the
    same keys in the same order. *)
Theorem calls_keep_the_keys
    (fmt : FormatMode) (events : list Event) (orders : Store) :
  Forall (fun e => match e with Create _ _ _ _ _ _ _ => False | _ => True end)
         events ->
  Dict.keys (run fmt events orders) = Dict.keys orders
  /\ List.length (run fmt events orders) = List.length orders.
Proof.
  intros H.
  assert (K : Dict.keys (run fmt events orders) = Dict.keys orders).
  { revert orders. induction H as [|e events He _ IH]; intros orders;
      [reflexivity|].
    change (run fmt (e :: events) orders)
      with (run fmt events (apply_event fmt orders e)).
    rewrite IH. destruct e; cbn [apply_event];
      [contradiction|apply exec_keys|reflexivity]. }
  split; [exact K|].
  unfold Dict.keys in K.
  rewrite <- (length_map fst), K. apply length_map.
Qed.

Lemma calls_keep_the_keys_witness :
  Dict.keys (run format_value (skipn 2 sample_events) (sample_store 2))
  = Dict.keys (sample_store 2).
Proof.
  destruct (calls_keep_the_keys format_value (skipn 2 sample_events)
              (sample_store 2)) as [K _].
  - cbn [skipn sample_events]. repeat constructor.
  - exact K.
Defined.

(** ** More on reachable stores *)

Section Invariants.

Variable fmt : FormatMode.

(** A property of stored orders holds in every reachable store as soon
    as new orders have it and firing keeps it. *)
Variable P : string -> Order.t -> Prop.
Hypothesis P_new :
  forall oid t v n p a its,
    P oid (Order.mk oid v (Customer.mk n p) a its OrderStatus.PENDING t
             None None None None None None false PaymentStatus.UNREQUESTED).
Hypothesis P_fires :
  forall id c t o o', P id o -> fires c t o o' -> P id o'.

Lemma holds_event e orders :
  all_orders P orders -> all_orders P (apply_event fmt orders e).
Proof.
  intros H. destruct e as [oid t v n p a its|c t|v f]; cbn [apply_event].
  - intros id o. unfold new_order, get_order. cbn [snd].
    destruct (String.eqb id oid) eqn:E.
    + apply String.eqb_eq in E. subst.
      rewrite DictFacts.get_set_same. intros [= <-]. apply P_new.
    + apply String.eqb_neq in E.
      rewrite DictFacts.get_set_other by assumption. intros G.
      apply H. exact G.
  - intros id o' G'.
    destruct (exec_get_back fmt c t orders id o' G') as [o G].
    destruct (exec_get fmt c t orders id o G) as (o1 & G1 & [E|(_ & F & _)]).
    + subst. replace o' with o by congruence. apply (H id o G).
    + replace o' with o1 by congruence.
      eapply P_fires; [apply (H id o G)|exact F].
  - exact H.
Qed.

Lemma reachable_invariant orders :
  reachable fmt orders ->
  forall id o, get_order orders id = Some o -> P id o.
Proof.
  intros [events <-].
  assert (G : forall events s,
             all_orders P s -> all_orders P (run fmt events s)).
  { clear events. induction events as [|e events IH]; intros s H; cbn;
      [assumption|]. apply IH. apply holds_event. assumption. }
  apply G. intros id o. discriminate.
Qed.

End Invariants.

(** X3. The payment_requested flag is never raised: every order of a
    reachable store has it false, whatever its payment_status, also
    after payment was requested or confirmed. *)
Theorem payment_requested_flag_stays_false
    (fmt : FormatMode) (orders : Store) (id : string) (o : Order.t) :
  reachable fmt orders ->
  get_order orders id = Some o ->
  Order.payment_requested o = false.
Proof.
  intros R. revert id o.
  apply (reachable_invariant fmt (fun _ o => Order.payment_requested o = false));
    [reflexivity| |assumption].
  intros id c t o o' H F. destruct F; exact H.
Qed.

Lemma payment_requested_flag_stays_false_witness :
  exists o,
    get_order (sample_store 7) "a1b2c3d4" = Some o
    /\ Order.payment_status o = PaymentStatus.REQUESTED
    /\ Order.payment_requested o = false.
Proof.
  eexists. split; [vm_compute; reflexivity|]. split; [reflexivity|].
  eapply (payment_requested_flag_stays_false format_value (sample_store 7)
            "a1b2c3d4").
  - apply sample_reachable.
  - vm_compute. reflexivity.
Defined.

Lemma delivery_agents_keyed_by_id a agent :
  Dict.get delivery_agents a = Some agent -> Agent.id agent = a.
Proof.
  unfold delivery_agents. cbn [Dict.get].
  repeat match goal with
         | |- context [String.eqb ?k a] =>
             destruct (String.eqb k a) eqn:?E
         end; try discriminate;
    intros [= <-];
    match goal with
    | H : String.eqb _ a = true |- _ => apply String.eqb_eq in H; exact H
    end.
Qed.

(** X4. In a reachable store every order is stored under its own
    order_id. *)
Theorem orders_stored_under_their_id
    (fmt : FormatMode) (orders : Store) (id : string) (o : Order.t) :
  reachable fmt orders ->
  get_order orders id = Some o ->
  Order.order_id o = id.
Proof.
  intros R. revert id o.
  apply (reachable_invariant fmt (fun id o => Order.order_id o = id));
    [reflexivity| |assumption].
  intros id c t o o' H F. destruct F; exact H.
Qed.

Lemma orders_stored_under_their_id_witness :
  exists o,
    get_order (sample_store 9) "e5f6a7b8" = Some o
    /\ Order.order_id o = "e5f6a7b8".
Proof.
  eexists. split; [vm_compute; reflexivity|].
  eapply (orders_stored_under_their_id format_value (sample_store 9)).
  - apply sample_reachable.
  - vm_compute. reflexivity.
Defined.

(** X5. In a reachable store an order has a delivery agent exactly when
    it has been assigned (assigned_at is set), and the agent recorded is
    the directory's entry for the agent's id. *)
Theorem delivery_agent_is_a_directory_entry
    (fmt : FormatMode) (orders : Store) (id : string) (o : Order.t) :
  reachable fmt orders ->
  get_order orders id = Some o ->
  (Order.delivery_agent o = None <-> Order.assigned_at o = None)
  /\ forall agent,
       Order.delivery_agent o = Some agent ->
       Dict.get delivery_agents (Agent.id agent) = Some agent.
Proof.
  intros R. revert id o.
  apply (reachable_invariant fmt (fun _ o => agent_recorded o));
    [| |assumption].
  - intros. split; [cbn; tauto|cbn; discriminate].
  - intros id c t o o' [H1 H2] F. unfold agent_recorded.
    destruct F; cbn; try (split; assumption).
    split; [split; discriminate|].
    intros ag [= <-].
    rewrite (delivery_agents_keyed_by_id _ _ H0). assumption.
Qed.

Lemma delivery_agent_is_a_directory_entry_witness :
  exists o agent,
    get_order (sample_store 5) "a1b2c3d4" = Some o
    /\ Order.delivery_agent o = Some agent
    /\ Dict.get delivery_agents (Agent.id agent) = Some agent.
Proof.
  eexists. eexists. split; [vm_compute; reflexivity|].
  split; [reflexivity|].
  edestruct (delivery_agent_is_a_directory_entry
               format_value (sample_store 5) "a1b2c3d4") as [_ H];
    [apply sample_reachable|vm_compute; reflexivity|].
  apply H. reflexivity.
Defined.

(** ** Creation on top of an existing store *)

Lemma get_none_not_key {V} (d : Dict.t V) k :
  Dict.get d k = None <-> ~ In k (Dict.keys d).
Proof.
  unfold Dict.keys. induction d as [|[k0 v0] d IH]; cbn; [tauto|].
  destruct (String.eqb k0 k) eqn:E.
  - apply String.eqb_eq in E. split; [discriminate|]. intros H. exfalso. auto.
  - apply String.eqb_neq in E. rewrite IH. tauto.
Qed.

Lemma keys_set {V} (d : Dict.t V) k v :
  Dict.keys (Dict.set d k v)
  = match Dict.get d k with
    | Some _ => Dict.keys d
    | None => (Dict.keys d ++ [k])%list
    end.
Proof.
  unfold Dict.keys. induction d as [|[k0 v0] d IH]; cbn; [reflexivity|].
  destruct (String.eqb k0 k) eqn:E; cbn; [reflexivity|].
  rewrite IH. destruct (Dict.get d k); reflexivity.
Qed.

Lemma values_set_fresh {V} (d : Dict.t V) k v :
  Dict.get d k = None ->
  Dict.values (Dict.set d k v) = (Dict.values d ++ [v])%list.
Proof.
  unfold Dict.values. induction d as [|[k0 v0] d IH]; cbn; [reflexivity|].
  destruct (String.eqb k0 k); [discriminate|].
  intros H. cbn. rewrite IH by assumption. reflexivity.
Qed.

(** X6. [new_order] stores the new Pending order under the id drawn and
    leaves every other id as it was.  When the id is new the order goes
    last in the store; when the id is already in use, the order stored
    under it, whatever its state, is replaced in place by the new one
    and the store does not grow. *)
Theorem new_order_stores_one_order
    (oid : string) (t : Z)
    (vendor_id customer_name customer_phone address : string)
    (items : list Item.t) (orders : Store) :
  let created :=
    Order.mk oid vendor_id (Customer.mk customer_name customer_phone)
             address items OrderStatus.PENDING t
             None None None None None None false PaymentStatus.UNREQUESTED in
  let orders' :=
    snd (new_order oid t vendor_id customer_name customer_phone address
                   items orders) in
  get_order orders' oid = Some created
  /\ (forall id, id <> oid -> get_order orders' id = get_order orders id)
  /\ (get_order orders oid = None ->
      Dict.keys orders' = (Dict.keys orders ++ [oid])%list
      /\ Dict.values orders' = (Dict.values orders ++ [created])%list)
  /\ (forall old, get_order orders oid = Some old ->
      Dict.keys orders' = Dict.keys orders
      /\ List.length orders' = List.length orders).
Proof.
  cbv zeta. unfold new_order, get_order. cbn [snd].
  split; [apply DictFacts.get_set_same|].
  split; [intros id N; apply DictFacts.get_set_other; assumption|].
  split.
  - intros G. rewrite keys_set, G. split; [reflexivity|].
    apply values_set_fresh. assumption.
  - intros old G.
    assert (K : Dict.keys (Dict.set orders oid
                   (Order.mk oid vendor_id
                      (Customer.mk customer_name customer_phone) address items
                      OrderStatus.PENDING t None None None None None None false
                      PaymentStatus.UNREQUESTED)) = Dict.keys orders).
    { rewrite keys_set, G. reflexivity. }
    split; [exact K|].
    unfold Dict.keys in K. rewrite <- (length_map fst), K. apply length_map.
Qed.

(** On the sample run: drawing the id of the paid order again replaces
    that order by a pending one. *)
Lemma new_order_stores_one_order_witness :
  Dict.keys
    (snd (new_order "a1b2c3d4" 2000 "vendor_2" "Ravi" "919876500003"
                    "Car Street" [Item.mk "vada" 4] (sample_store 9)))
  = Dict.keys (sample_store 9).
Proof.
  destruct (new_order_stores_one_order
              "a1b2c3d4" 2000 "vendor_2" "Ravi" "919876500003" "Car Street"
              [Item.mk "vada" 4] (sample_store 9)) as (_ & _ & _ & H).
  edestruct H as [K _]; [vm_compute; reflexivity|exact K].
Defined.

(** ** How the transitions compose *)

Lemma fires_functional c t o o1 o2 :
  fires c t o o1 -> fires c t o o2 -> o1 = o2.
Proof.
  intros F1 F2. inversion F1; subst; inversion F2; subst; try reflexivity.
  congruence.
Qed.

(** A call whose transition is enabled succeeds and stores the
    transition's result in place. *)
Lemma exec_fires fmt (c : Call) (t : Z) (orders : Store) o o' :
  get_order orders (target c) = Some o ->
  fires c t o o' ->
  ok (fst (exec fmt c t orders)) = true
  /\ snd (exec fmt c t orders) = Dict.mutate orders (target c) o'
  /\ get_order (snd (exec fmt c t orders)) (target c) = Some o'.
Proof.
  intros G F.
  assert (K : ok (fst (exec fmt c t orders)) = true).
  { rewrite (exec_ok_precondition fmt c t orders o G).
    eapply fires_precondition. eassumption. }
  destruct (exec_cases fmt c t orders)
    as [[K' _]|(o0 & o1 & G0 & F1 & _ & E)]; [congruence|].
  replace o0 with o in * by congruence.
  rewrite (fires_functional _ _ _ _ _ F F1).
  split; [assumption|]. split; [assumption|].
  rewrite E. unfold get_order in *.
  eapply DictFacts.get_mutate_same. eassumption.
Qed.

(** X8. The full lifecycle composes: on a pending order and with an
    agent id of the directory, the six calls accept, markReady, assign,
    markDelivered, requestPayment, confirmPayment all succeed in that
    order, and leave the order Paid, with payment_status Paid, the five
    timestamps equal to the clock readings of their calls, the agent
    recorded, and everything given at creation unchanged. *)
Theorem full_lifecycle_succeeds
    (fmt : FormatMode) (orders : Store) (id agent_id : string)
    (o : Order.t) (agent : Agent.t) (t1 t2 t3 t4 t5 t6 : Z) :
  get_order orders id = Some o ->
  Order.status o = OrderStatus.PENDING ->
  Dict.get delivery_agents agent_id = Some agent ->
  let calls := full_lifecycle id agent_id t1 t2 t3 t4 t5 t6 in
  Forall (fun r => ok r = true) (results fmt calls orders)
  /\ exists o',
       get_order (run fmt (invoke_all calls) orders) id = Some o'
       /\ Order.status o' = OrderStatus.PAID
       /\ Order.payment_status o' = PaymentStatus.PAID
       /\ Order.accepted_at o' = Some t1
       /\ Order.ready_at o' = Some t2
       /\ Order.assigned_at o' = Some t3
       /\ Order.delivered_at o' = Some t4
       /\ Order.paid_at o' = Some t6
       /\ Order.delivery_agent o' = Some agent
       /\ same_given o o'.
Proof.
  intros G S A. cbv zeta. unfold full_lifecycle.
  cbn [results invoke_all map run fold_left apply_event fst snd].
  pose (o1 := Order.set_accepted_at (Order.set_status o OrderStatus.ACCEPTED) t1).
  pose (o2 := Order.set_ready_at (Order.set_status o1 OrderStatus.READY) t2).
  pose (o3 := Order.set_delivery_agent
                (Order.set_assigned_at
                   (Order.set_status o2 OrderStatus.ASSIGNED) t3) agent).
  pose (o4 := Order.set_delivered_at
                (Order.set_status o3 OrderStatus.DELIVERED) t4).
  pose (o5 := Order.set_payment_status o4 PaymentStatus.REQUESTED).
  destruct (exec_fires fmt (Decide id true) t1 orders o o1 G
              (fires_accept id t1 o S)) as (K1 & _ & G1).
  set (s1 := snd (exec fmt (Decide id true) t1 orders)) in *.
  destruct (exec_fires fmt (MarkReady id) t2 s1 o1 o2 G1
              (fires_ready id t2 o1 eq_refl)) as (K2 & _ & G2).
  set (s2 := snd (exec fmt (MarkReady id) t2 s1)) in *.
  destruct (exec_fires fmt (Assign id agent_id) t3 s2 o2 o3 G2
              (fires_assign id agent_id agent t3 o2 eq_refl A))
    as (K3 & _ & G3).
  set (s3 := snd (exec fmt (Assign id agent_id) t3 s2)) in *.
  destruct (exec_fires fmt (MarkDelivered id) t4 s3 o3 o4 G3
              (fires_delivered id t4 o3 eq_refl)) as (K4 & _ & G4).
  set (s4 := snd (exec fmt (MarkDelivered id) t4 s3)) in *.
  destruct (exec_fires fmt (RequestPayment id None "INR") t5 s4 o4 o5 G4
              (fires_request id None "INR" t5 o4 (or_intror eq_refl)))
    as (K5 & _ & G5).
  set (s5 := snd (exec fmt (RequestPayment id None "INR") t5 s4)) in *.
  destruct (exec_fires fmt (ConfirmPayment id) t6 s5 o5 _ G5
              (fires_paid id t6 o5 eq_refl)) as (K6 & _ & G6).
  split.
  - repeat constructor; assumption.
  - eexists. split; [exact G6|]. repeat split.
Qed.

Lemma full_lifecycle_succeeds_witness :
  exists o',
    get_order
      (run format_value
           (invoke_all (full_lifecycle "e5f6a7b8" "agent_2" 1 2 3 4 5 6))
           (sample_store 2)) "e5f6a7b8" = Some o'
    /\ Order.status o' = OrderStatus.PAID
    /\ Order.paid_at o' = Some 6%Z.
Proof.
  edestruct (full_lifecycle_succeeds format_value (sample_store 2)
               "e5f6a7b8" "agent_2")
    as (_ & o' & G & S & _ & _ & _ & _ & _ & P & _);
    [ vm_compute; reflexivity | reflexivity | reflexivity | ].
  exists o'. split; [exact G|]. split; [exact S|exact P].
Defined.

(** X9. No transition can be taken twice in a row: when a call other
    than requestPayment succeeds, the same call made again right after
    it (at any time) fails and leaves the store as the first call left
    it. *)
Theorem repeated_transition_fails
    (fmt : FormatMode) (c : Call) (t t' : Z) (orders : Store) :
  (forall i amount currency, c <> RequestPayment i amount currency) ->
  ok (fst (exec fmt c t orders)) = true ->
  ok (fst (exec fmt c t' (snd (exec fmt c t orders)))) = false
  /\ snd (exec fmt c t' (snd (exec fmt c t orders)))
     = snd (exec fmt c t orders).
Proof.
  intros N K.
  destruct (exec_cases fmt c t orders)
    as [[K' _]|(o & o' & G & F & _ & E)]; [congruence|].
  assert (G' : get_order (snd (exec fmt c t orders)) (target c) = Some o').
  { rewrite E. unfold get_order in *.
    eapply DictFacts.get_mutate_same. eassumption. }
  assert (K2 : ok (fst (exec fmt c t' (snd (exec fmt c t orders)))) = false).
  { rewrite (exec_ok_precondition fmt c t' _ o' G').
    destruct F; cbn;
      try reflexivity.
    exfalso. eapply N. reflexivity. }
  split; [exact K2|]. apply exec_failure_unchanged. exact K2.
Qed.

Lemma repeated_transition_fails_witness :
  ok (fst (exec format_value (MarkReady "a1b2c3d4") 1021
                (snd (exec format_value (MarkReady "a1b2c3d4") 1020
                           (sample_store 3))))) = false.
Proof.
  destruct (repeated_transition_fails
              format_value (MarkReady "a1b2c3d4") 1020 1021 (sample_store 3))
    as [K _].
  - intros i amount currency. discriminate.
  - vm_compute. reflexivity.
  - exact K.
Defined.

(** X10. Payment does not wait for delivery.  On an assigned order of a
    reachable store, requestPayment followed by confirmPayment succeeds
    and makes the order Paid with delivered_at unset; from then on no
    sequence of lifecycle calls marks it delivered. *)
Theorem paid_before_delivery_stays_undelivered
    (fmt : FormatMode) (orders : Store) (id : string) (o : Order.t)
    (amount : option float) (currency : string) (t5 t6 : Z)
    (calls : list (Call * Z)) :
  reachable fmt orders ->
  get_order orders id = Some o ->
  Order.status o = OrderStatus.ASSIGNED ->
  Forall (fun r => ok r = true)
         (results fmt [ (RequestPayment id amount currency, t5);
                        (ConfirmPayment id, t6) ] orders)
  /\ exists o',
       get_order
         (run fmt (invoke_all ((RequestPayment id amount currency, t5)
                               :: (ConfirmPayment id, t6) :: calls)) orders)
         id = Some o'
       /\ Order.status o' = OrderStatus.PAID
       /\ Order.paid_at o' = Some t6
       /\ Order.delivered_at o' = None.
Proof.
  intros R G S.
  pose proof (reachable_ok fmt orders R) as W.
  assert (D : Order.delivered_at o = None).
  { specialize (W id o G). unfold well_formed in W. rewrite S in W.
    destruct (Order.delivered_at o); [|reflexivity].
    cbn in W. rewrite ?andb_false_r in W. cbn in W.
    rewrite ?andb_false_r in W. discriminate. }
  cbn [results invoke_all map run fold_left apply_event fst snd].
  destruct (exec_fires fmt (RequestPayment id amount currency) t5 orders o _ G
              (fires_request id amount currency t5 o (or_introl S)))
    as (K5 & _ & G5).
  pose proof (store_ok_exec fmt (RequestPayment id amount currency) t5 orders W)
    as W5.
  set (s5 := snd (exec fmt (RequestPayment id amount currency) t5 orders)) in *.
  destruct (exec_fires fmt (ConfirmPayment id) t6 s5
              (Order.set_payment_status o PaymentStatus.REQUESTED) _ G5
              (fires_paid id t6
                 (Order.set_payment_status o PaymentStatus.REQUESTED) eq_refl))
    as (K6 & _ & G6).
  pose proof (store_ok_exec fmt (ConfirmPayment id) t6 s5 W5) as W6.
  set (s6 := snd (exec fmt (ConfirmPayment id) t6 s5)) in *.
  split; [repeat constructor; assumption|].
  eexists. split.
  - apply (terminal_run fmt calls s6 id _ W6 G6). right. reflexivity.
  - repeat split. exact D.
Qed.

Lemma paid_before_delivery_stays_undelivered_witness :
  exists o',
    get_order
      (run format_value
           (invoke_all [ (RequestPayment "a1b2c3d4" None "INR", 1031%Z);
                         (ConfirmPayment "a1b2c3d4", 1032%Z);
                         (MarkDelivered "a1b2c3d4", 1040%Z) ])
           (sample_store 5)) "a1b2c3d4" = Some o'
    /\ Order.status o' = OrderStatus.PAID
    /\ Order.delivered_at o' = None.
Proof.
  pose proof (fun o =>
                paid_before_delivery_stays_undelivered
                  format_value (sample_store 5) "a1b2c3d4" o None "INR"
                  1031 1032 [ (MarkDelivered "a1b2c3d4", 1040%Z) ]
                  (sample_reachable 5)) as H.
  edestruct H as (_ & o' & G & S & _ & D);
    [ vm_compute; reflexivity | reflexivity | ].
  exists o'. split; [exact G|]. split; [exact S|exact D].
Defined.

(** ** Listing and the other tools *)

Lemma listed_eq vendor_id status_filter (orders : Store) :
  listed (fst (orders_list vendor_id status_filter orders))
  = sort_desc Order.created_at
      (filter (wanted vendor_id status_filter) (Dict.values orders)).
Proof. rewrite orders_list_eq. reflexivity. Qed.

Lemma filter_values_mutate (p : Order.t -> bool) (d : Store) k o o' :
  Dict.get d k = Some o -> p o = false -> p o' = false ->
  filter p (Dict.values (Dict.mutate d k o')) = filter p (Dict.values d).
Proof.
  unfold Dict.values. induction d as [|[k0 v0] d IH]; cbn; [reflexivity|].
  destruct (String.eqb k0 k).
  - intros [= ->] P P'. cbn. rewrite P, P'. reflexivity.
  - intros G P P'. cbn. rewrite IH by assumption. reflexivity.
Qed.

(** X11. A lifecycle call on an order of another vendor (or on no
    stored order) does not change a vendor's listing, under any status
    filter. *)
Theorem listing_unaffected_by_other_vendors
    (fmt : FormatMode) (c : Call) (t : Z) (orders : Store)
    (vendor_id : string) (status_filter : option string) :
  (forall o, get_order orders (target c) = Some o ->
             Order.vendor_id o <> vendor_id) ->
  fst (orders_list vendor_id status_filter (snd (exec fmt c t orders)))
  = fst (orders_list vendor_id status_filter orders).
Proof.
  intros H.
  destruct (exec_cases fmt c t orders)
    as [[_ ->]|(o & o' & G & F & _ & ->)]; [reflexivity|].
  rewrite !orders_list_eq. cbv zeta. cbn [fst].
  assert (V : Order.vendor_id o' = Order.vendor_id o)
    by (apply fires_same_given in F; apply F).
  assert (N : String.eqb (Order.vendor_id o) vendor_id = false)
    by (apply String.eqb_neq; auto).
  rewrite (filter_values_mutate _ orders (target c) o o' G);
    [ reflexivity
    | unfold wanted; rewrite N; reflexivity
    | unfold wanted; rewrite V, N; reflexivity ].
Qed.

Lemma listing_unaffected_by_other_vendors_witness :
  fst (orders_list "vendor_2" (Some "pending")
         (snd (exec format_value (Decide "a1b2c3d4" true) 1010
                    (sample_store 2))))
  = fst (orders_list "vendor_2" (Some "pending") (sample_store 2)).
Proof.
  apply listing_unaffected_by_other_vendors.
  intros o G. vm_compute in G.
  injection G as <-. discriminate.
Defined.

Section Alike.

Context {A : Type} (R : A -> A -> Prop) (key : A -> Z).
Hypothesis R_key : forall a b, R a b -> key a = key b.

Lemma alike_filter p l l' :
  (forall a b, R a b -> p a = p b) ->
  Forall2 R l l' -> Forall2 R (filter p l) (filter p l').
Proof.
  intros Hp. induction 1 as [|a b l l' Hab _ IH]; cbn; [constructor|].
  rewrite (Hp a b Hab). destruct (p b); [constructor|]; assumption.
Qed.

Lemma alike_insert_desc x y l l' :
  R x y -> Forall2 R l l' ->
  Forall2 R (insert_desc key x l) (insert_desc key y l').
Proof.
  intros Hxy. induction 1 as [|a b l l' Hab Hl IH]; cbn.
  - repeat constructor. assumption.
  - rewrite (R_key a b Hab), (R_key x y Hxy).
    destruct (key b <=? key y)%Z; repeat constructor; assumption.
Qed.

Lemma alike_sort_desc l l' :
  Forall2 R l l' -> Forall2 R (sort_desc key l) (sort_desc key l').
Proof.
  induction 1; cbn; [constructor|]. apply alike_insert_desc; assumption.
Qed.

Lemma alike_map {B} (g : A -> B) l l' :
  (forall a b, R a b -> g b = g a) ->
  Forall2 R l l' -> map g l' = map g l.
Proof.
  intros Hg. induction 1 as [|a b l l' Hab _ IH]; cbn; [reflexivity|].
  rewrite (Hg a b Hab), IH. reflexivity.
Qed.

End Alike.

Lemma values_mutate_alike (R : Order.t -> Order.t -> Prop) (d : Store) k o o' :
  (forall x, R x x) ->
  Dict.get d k = Some o -> R o o' ->
  Forall2 R (Dict.values d) (Dict.values (Dict.mutate d k o')).
Proof.
  intros Rr. unfold Dict.values.
  assert (Same : forall l : list (string * Order.t),
             Forall2 R (map snd l) (map snd l)).
  { induction l; cbn; constructor; auto. }
  induction d as [|[k0 v0] d IH]; cbn; [discriminate|].
  destruct (String.eqb k0 k).
  - intros [= ->] H. cbn. constructor; [assumption|apply Same].
  - intros G H. cbn. constructor; [apply Rr|]. apply IH; assumption.
Qed.

Lemma Forall2_chain {A} (R : A -> A -> Prop) :
  (forall a b c, R a b -> R b c -> R a c) ->
  forall l1 l2 l3, Forall2 R l1 l2 -> Forall2 R l2 l3 -> Forall2 R l1 l3.
Proof.
  intros Rt l1 l2 l3 H. revert l3.
  induction H as [|a b l1 l2 Hab _ IH]; intros l3 H3; inversion H3; subst;
    constructor; eauto.
Qed.

Lemma same_given_refl o : same_given o o.
Proof. repeat split. Qed.

Lemma same_given_trans a b c : same_given a b -> same_given b c -> same_given a c.
Proof.
  unfold same_given. intros H1 H2.
  decompose [and] H1. decompose [and] H2. repeat split; congruence.
Qed.

Lemma run_values_alike fmt (calls : list (Call * Z)) (orders : Store) :
  Forall2 same_given (Dict.values orders)
          (Dict.values (run fmt (invoke_all calls) orders)).
Proof.
  revert orders. induction calls as [|[c t] calls IH]; intros orders; cbn.
  - unfold Dict.values. induction orders; cbn; constructor;
      auto using same_given_refl.
  - eapply Forall2_chain; [apply same_given_trans| |apply IH].
    destruct (exec_cases fmt c t orders)
      as [[_ ->]|(o & o' & G & F & _ & ->)].
    + unfold Dict.values. induction orders; cbn; constructor;
        auto using same_given_refl.
    + apply (values_mutate_alike same_given orders (target c) o o');
        [apply same_given_refl|exact G|apply fires_same_given in F; exact F].
Qed.

(** X12. Lifecycle calls do not reshuffle the unfiltered listing: after
    any sequence of them a vendor's listing, taken without a status
    filter, shows the same order ids in the same positions, and the same
    count. *)
Theorem listing_order_survives_lifecycle_calls
    (fmt : FormatMode) (calls : list (Call * Z)) (orders : Store)
    (vendor_id : string) :
  let before := listed (fst (orders_list vendor_id None orders)) in
  let after :=
    listed (fst (orders_list vendor_id None
                   (run fmt (invoke_all calls) orders))) in
  map Order.order_id after = map Order.order_id before
  /\ List.length after = List.length before.
Proof.
  cbv zeta. rewrite !listed_eq.
  assert (E : map Order.order_id
                (sort_desc Order.created_at
                   (filter (wanted vendor_id None)
                      (Dict.values (run fmt (invoke_all calls) orders))))
              = map Order.order_id
                  (sort_desc Order.created_at
                     (filter (wanted vendor_id None) (Dict.values orders)))).
  { apply (alike_map same_given); [intros a b H; apply H|].
    apply alike_sort_desc; [intros a b H; symmetry; apply H|].
    apply alike_filter; [|apply run_values_alike].
    intros a b H. unfold wanted.
    destruct H as (_ & -> & _). reflexivity. }
  split; [exact E|].
  rewrite <- (length_map Order.order_id), E. apply length_map.
Qed.

Section Snoc.

Context {A : Type} (key : A -> Z).

Lemma descending_app l1 l2 :
  descending key l1 -> descending key l2 ->
  (forall a b, In a l1 -> In b l2 -> (key b <= key a)%Z) ->
  descending key (l1 ++ l2).
Proof.
  unfold descending. intros D1 D2 H.
  induction D1 as [|x l1 D1 IH Hx]; cbn; [assumption|].
  constructor.
  - apply IH. intros a b Ha Hb. apply H; [right|]; assumption.
  - apply Forall_app. split; [assumption|].
    rewrite Forall_forall. intros b Hb. apply H; [left; reflexivity|assumption].
Qed.

Lemma ties_app k l1 l2 :
  ties key k (l1 ++ l2) = (ties key k l1 ++ ties key k l2)%list.
Proof. unfold ties. apply filter_app. Qed.

Lemma filter_ties_by_key (q : Z -> bool) k l :
  filter (fun a => q (key a)) (ties key k l)
  = if q k then ties key k l else [].
Proof.
  unfold ties. induction l as [|a l IH]; cbn; [destruct (q k); reflexivity|].
  destruct (key a =? k)%Z eqn:E; [|exact IH].
  apply Z.eqb_eq in E. cbn. rewrite IH, E.
  destruct (q k); reflexivity.
Qed.

(** Sorting a list with one more element at its end: the new element
    goes behind everything at least as large and ahead of everything
    smaller. *)
Lemma sort_desc_snoc l x :
  sort_desc key (l ++ [x])
  = (filter (fun a => (key x <=? key a)%Z) (sort_desc key l)
     ++ x :: filter (fun a => (key a <? key x)%Z) (sort_desc key l))%list.
Proof.
  apply (same_ties_equal key).
  - apply sort_desc_descending.
  - apply descending_app.
    + apply descending_filter, sort_desc_descending.
    + constructor.
      * apply (descending_filter key), sort_desc_descending.
      * rewrite Forall_forall. intros b Hb. apply filter_In in Hb.
        destruct Hb as [_ Hb]. apply Z.ltb_lt in Hb. lia.
    + intros a b Ha Hb. apply filter_In in Ha. destruct Ha as [_ Ha].
      apply Z.leb_le in Ha. destruct Hb as [<-|Hb]; [assumption|].
      apply filter_In in Hb. destruct Hb as [_ Hb]. apply Z.ltb_lt in Hb. lia.
  - intros k. rewrite ties_sort_desc, !ties_app.
    change (x :: filter (fun a => (key a <? key x)%Z) (sort_desc key l))
      with ([x] ++ filter (fun a => (key a <? key x)%Z) (sort_desc key l))%list.
    rewrite ties_app, !ties_filter, ties_sort_desc.
    rewrite (filter_ties_by_key (fun z => (key x <=? z)%Z)).
    rewrite (filter_ties_by_key (fun z => (z <? key x)%Z)).
    unfold ties at 2 4. cbn [filter].
    destruct (Z.eqb_spec (key x) k), (Z.leb_spec (key x) k),
             (Z.ltb_spec k (key x));
      try lia; cbn; rewrite ?app_nil_r; reflexivity.
Qed.

End Snoc.

(** X13. Where a new order shows up.  When [new_order] draws an id that
    is not in use, a listing that wants the new order (its vendor, and
    no status filter or the filter "pending") is the listing from
    before with the new order put behind every order created at the same
    time or later and ahead of every older one; a listing that does not
    want it (another vendor, another status) is unchanged. *)
Theorem new_order_position_in_listing
    (oid : string) (t : Z)
    (vendor_id customer_name customer_phone address : string)
    (items : list Item.t) (orders : Store)
    (listed_vendor : string) (status_filter : option string) :
  get_order orders oid = None ->
  let created :=
    Order.mk oid vendor_id (Customer.mk customer_name customer_phone)
             address items OrderStatus.PENDING t
             None None None None None None false PaymentStatus.UNREQUESTED in
  let before :=
    listed (fst (orders_list listed_vendor status_filter orders)) in
  let after :=
    listed (fst (orders_list listed_vendor status_filter
                   (snd (new_order oid t vendor_id customer_name
                                   customer_phone address items orders)))) in
  (wanted listed_vendor status_filter created = true ->
   after = (filter (fun o => (t <=? Order.created_at o)%Z) before
            ++ created
               :: filter (fun o => (Order.created_at o <? t)%Z) before)%list)
  /\ (wanted listed_vendor status_filter created = false -> after = before).
Proof.
  intros G. cbv zeta. rewrite !listed_eq.
  unfold new_order. cbn [snd].
  rewrite (values_set_fresh orders oid _ G), filter_app. cbn [filter].
  split; intros W; rewrite W.
  - apply (sort_desc_snoc Order.created_at).
  - rewrite app_nil_r. reflexivity.
Qed.

(** On the seeded store: a third order of vendor_1, created later, is
    listed first. *)
Lemma new_order_position_in_listing_witness :
  map Order.order_id
    (listed (fst (orders_list "vendor_1" (Some "pending")
                    (snd (new_order "0a1b2c3d" 1005 "vendor_1" "Ravi"
                                    "919876500003" "Car Street"
                                    [Item.mk "vada" 4] (sample_store 2))))))
  = ["0a1b2c3d"; "a1b2c3d4"; "e5f6a7b8"].
Proof.
  destruct (new_order_position_in_listing
              "0a1b2c3d" 1005 "vendor_1" "Ravi" "919876500003" "Car Street"
              [Item.mk "vada" 4] (sample_store 2) "vendor_1" (Some "pending"))
    as [H _]; [vm_compute; reflexivity|].
  rewrite H by (vm_compute; reflexivity).
  vm_compute. reflexivity.
Defined.

(** * Properties of the menu and the order intake *)

Section Menu.

Variable py_lower : string -> string.

Lemma names_of_lines (l : Dict.t MenuEntry.t) :
  map MenuLine.item (map format_line l) = Dict.keys l.
Proof.
  unfold Dict.keys. rewrite map_map. apply map_ext. intros [name details].
  reflexivity.
Qed.

Lemma keys_filter_by_key {V} (p : string -> bool) (d : Dict.t V) :
  Dict.keys (filter (fun entry => p (fst entry)) d) = filter p (Dict.keys d).
Proof.
  unfold Dict.keys. induction d as [|[k v] d IH]; cbn; [reflexivity|].
  destruct (p k); cbn; rewrite IH; reflexivity.
Qed.

Lemma search_results_keys text :
  Dict.keys (search_results py_lower text)
  = filter (fun name => contains (py_lower text) (py_lower name))
           (Dict.keys menu).
Proof.
  unfold search_results.
  apply (keys_filter_by_key
           (fun name => contains (py_lower text) (py_lower name))).
Qed.

(** X14. [get_menu] without a search text, or with the empty text,
    returns the whole menu in menu order.  With a search text it returns
    exactly the items whose lower-cased name contains the lower-cased
    text, in menu order and never an empty list; when no item matches it
    raises INVALID_PARAMS naming the text.  Every line returned is the
    rendering of the menu's entry for its item. *)
Theorem get_menu_contract (item : option string) :
  (truthy item = false ->
   exists reply,
     get_menu py_lower item = Returned reply
     /\ map MenuLine.item (MenuReply.menu reply) = Dict.keys menu)
  /\ (forall text,
        item = Some text -> truthy item = true ->
        let hits :=
          filter (fun name => contains (py_lower text) (py_lower name))
                 (Dict.keys menu) in
        (hits <> [] ->
         exists reply,
           get_menu py_lower item = Returned reply
           /\ map MenuLine.item (MenuReply.menu reply) = hits)
        /\ (hits = [] ->
            get_menu py_lower item
            = Raised (McpError INVALID_PARAMS
                        ("No items found matching '" ++ text ++ "'"))))
  /\ (forall reply line,
        get_menu py_lower item = Returned reply ->
        In line (MenuReply.menu reply) ->
        exists entry,
          Dict.get menu (MenuLine.item line) = Some entry
          /\ line = format_line (MenuLine.item line, entry)).
Proof.
  assert (Full : forall line,
             In line (map format_line menu) ->
             exists entry,
               Dict.get menu (MenuLine.item line) = Some entry
               /\ line = format_line (MenuLine.item line, entry)).
  { intros line H. cbn in H.
    repeat (destruct H as [<-|H];
            [eexists; split; [vm_compute; reflexivity|reflexivity]|]).
    destruct H. }
  split; [|split].
  - intros T. unfold get_menu. rewrite T. cbn [bind].
    eexists. split; [reflexivity|]. cbn [MenuReply.menu].
    apply names_of_lines.
  - intros text -> T. cbv zeta. unfold get_menu. rewrite T. cbn [bind].
    rewrite <- search_results_keys.
    destruct (search_results py_lower text) as [|e l] eqn:E.
    + split; [intros H; exfalso; apply H; reflexivity|reflexivity].
    + split; [|discriminate]. intros _. cbn [bind].
      eexists. split; [reflexivity|]. cbn [MenuReply.menu].
      apply names_of_lines.
  - intros reply line H L.
    assert (Sub : exists chosen,
               MenuReply.menu reply = map format_line chosen
               /\ forall e, In e chosen -> In e menu).
    { unfold get_menu in H.
      destruct (truthy item); [destruct item as [text|]|].
      - destruct (search_results py_lower text) as [|e l] eqn:E;
          [discriminate|].
        cbn [bind] in H. injection H as <-.
        exists (e :: l). split; [reflexivity|].
        intros e0 H0. rewrite <- E in H0. unfold search_results in H0.
        apply filter_In in H0. tauto.
      - cbn [bind] in H. injection H as <-. exists menu. auto.
      - cbn [bind] in H. injection H as <-. exists menu. auto. }
    destruct Sub as (chosen & M & Incl). rewrite M in L.
    apply in_map_iff in L. destruct L as (e & <- & He).
    apply Full. apply in_map. apply Incl. assumption.
Qed.

End Menu.

Lemma get_menu_contract_witness :
  exists reply,
    get_menu lower (Some "Pomfret") = Returned reply
    /\ map MenuLine.item (MenuReply.menu reply)
       = ["Pomfret (White)"; "Pomfret (Black)"].
Proof.
  destruct (get_menu_contract lower (Some "Pomfret")) as (_ & H & _).
  destruct (H "Pomfret" eq_refl eq_refl) as [H1 _].
  destruct H1 as (reply & E & M); [vm_compute; discriminate|].
  exists reply. split; [exact E|]. rewrite M. vm_compute. reflexivity.
Defined.

Section IntakeMore.

Variable py_strip : string -> string.
Variable py_lower : string -> string.
Variable py_float : string -> option float.
Variable class_timestamp : string.

Lemma in_stock_items_set d name entry q :
  in_stock_items d ->
  Dict.get menu name = Some entry ->
  MenuEntry.available entry = true ->
  in_stock_items (Dict.set d name q).
Proof.
  intros [N H] M Av. unfold in_stock_items. rewrite keys_set.
  destruct (Dict.get d name) eqn:E; [split; assumption|].
  apply get_none_not_key in E. split.
  - apply NoDup_app; [assumption|repeat constructor; intros []|].
    intros x Hx [<-|[]]. contradiction.
  - intros x Hx. apply in_app_or in Hx. destruct Hx as [Hx|[<-|[]]]; eauto.
Qed.

Lemma parse_item_in_stock acc item_str acc' :
  in_stock_items (fst acc) ->
  parse_item py_strip py_lower py_float acc item_str = Returned acc' ->
  in_stock_items (fst acc').
Proof.
  intros V H. destruct acc as [parsed errors]. unfold parse_item in H.
  destruct (String.eqb (py_strip item_str) EmptyString);
    [injection H as <-; exact V|].
  match type of H with
  | bind ?c _ = _ => destruct c as [[qty item_name]|e]; [|discriminate]
  end.
  cbn [bind] in H.
  destruct (negb (truthy _)); [injection H as <-; exact V|].
  destruct (find _ _) as [m|]; [|injection H as <-; exact V].
  destruct (Dict.get menu m) as [entry|] eqn:M; [|injection H as <-; exact V].
  destruct (MenuEntry.available entry) eqn:Av; cbn [negb] in H;
    injection H as <-; [|exact V].
  eapply in_stock_items_set; eassumption.
Qed.

Lemma parse_items_in_stock item_strs :
  forall acc acc',
    in_stock_items (fst acc) ->
    parse_items py_strip py_lower py_float acc item_strs = Returned acc' ->
    in_stock_items (fst acc').
Proof.
  induction item_strs as [|s rest IH]; intros acc acc' V H; cbn in H.
  - injection H as <-. exact V.
  - destruct (parse_item py_strip py_lower py_float acc s) as [acc1|e] eqn:E;
      [|discriminate].
    cbn [bind] in H. eapply IH; [|exact H].
    eapply parse_item_in_stock; eassumption.
Qed.

(** X15. What [place_order] stores.  Whenever it returns, the order it
    appended holds at least one item, the item names are pairwise
    distinct (a name given twice keeps one entry) and each is the name
    of a menu item that is in stock: an unknown or out-of-stock item
    never reaches the order list. *)
Theorem stored_items_are_in_stock
    (customer_name customer_contact items special_instructions : string)
    (orders : list BusinessOrder.t) :
  match place_order py_strip py_lower py_float class_timestamp
                    customer_name customer_contact items
                    special_instructions orders with
  | (Returned _, orders') =>
      exists order,
        orders' = (orders ++ [order])%list
        /\ BusinessOrder.items order <> []
        /\ NoDup (Dict.keys (BusinessOrder.items order))
        /\ forall name, In name (Dict.keys (BusinessOrder.items order)) ->
             exists entry,
               Dict.get menu name = Some entry
               /\ MenuEntry.available entry = true
  | (Raised _, orders') => orders' = orders
  end.
Proof.
  unfold place_order.
  destruct (parse_items py_strip py_lower py_float ([], []) _)
    as [[parsed_items errors]|e] eqn:P; [|reflexivity].
  destruct errors as [|err errors]; [|reflexivity].
  destruct parsed_items as [|item parsed_items]; [reflexivity|].
  eexists. split; [reflexivity|]. split; [discriminate|].
  cbn [BusinessOrder.items].
  apply (parse_items_in_stock _ ([], []) _) in P; [exact P|].
  split; [constructor|intros name []].
Qed.

Lemma place_appends_one (r : Request.t) (orders : list BusinessOrder.t) :
  match place py_strip py_lower py_float class_timestamp r orders with
  | (Returned _, orders') =>
      exists order,
        orders' = (orders ++ [order])%list
        /\ BusinessOrder.items order <> []
        /\ BusinessOrder.timestamp order = class_timestamp
  | (Raised _, orders') => orders' = orders
  end.
Proof.
  unfold place, place_order.
  destruct (parse_items py_strip py_lower py_float ([], [])
              (split_char "," (Request.items r)))
    as [[parsed_items errors]|e]; [|reflexivity].
  destruct errors as [|err errors]; [|reflexivity].
  destruct parsed_items as [|item parsed_items]; [reflexivity|].
  eexists. split; [reflexivity|]. split; [discriminate|reflexivity].
Qed.

(** X16. Requests only ever add to the order list: after any sequence
    of [place_order] calls the orders from before are still there,
    unchanged and in front; at most one order per request was appended,
    each with at least one item, and all of them carry the one timestamp
    that was taken when the class was defined. *)
Theorem place_all_appends
    (requests : list Request.t) (orders : list BusinessOrder.t) :
  exists added,
    place_all py_strip py_lower py_float class_timestamp requests orders
    = (orders ++ added)%list
    /\ (List.length added <= List.length requests)%nat
    /\ Forall (fun o => BusinessOrder.items o <> []
                        /\ BusinessOrder.timestamp o = class_timestamp)
              added.
Proof.
  revert orders. induction requests as [|r requests IH]; intros orders.
  - exists []. cbn. rewrite app_nil_r. repeat split; constructor.
  - change (place_all py_strip py_lower py_float class_timestamp
                      (r :: requests) orders)
      with (place_all py_strip py_lower py_float class_timestamp requests
              (snd (place py_strip py_lower py_float class_timestamp
                          r orders))).
    pose proof (place_appends_one r orders) as H.
    destruct (place py_strip py_lower py_float class_timestamp r orders)
      as [[confirmation|e] orders']; cbn [snd].
    + destruct H as (order & -> & I & T).
      destruct (IH (orders ++ [order])%list) as (added & E & L & F).
      exists (order :: added). rewrite E, <- app_assoc.
      split; [reflexivity|]. split; [cbn; lia|].
      constructor; [split; assumption|exact F].
    + subst orders'. destruct (IH orders) as (added & E & L & F).
      exists added. split; [exact E|]. split; [cbn; lia|exact F].
Qed.

End IntakeMore.

Lemma find_first_of_filter {A} (p : A -> bool) l :
  find p l = match filter p l with
             | x :: _ => Some x
             | [] => None
             end.
Proof.
  induction l as [|a l IH]; cbn; [reflexivity|].
  destruct (p a); [reflexivity|exact IH].
Qed.

(** X17. Ordering and searching agree on names.  For a non-empty item
    name, the menu item an order line resolves to is the first line that
    [get_menu] returns for the same text; and when the order line finds
    no item, the search raises its no-match error. *)
Theorem order_line_resolves_to_first_search_hit
    (py_lower : string -> string) (name : string) :
  name <> EmptyString ->
  match match_item py_lower name with
  | Some m =>
      exists reply line rest,
        get_menu py_lower (Some name) = Returned reply
        /\ MenuReply.menu reply = line :: rest
        /\ MenuLine.item line = m
  | None =>
      get_menu py_lower (Some name)
      = Raised (McpError INVALID_PARAMS
                  ("No items found matching '" ++ name ++ "'"))
  end.
Proof.
  intros N. unfold match_item. rewrite find_first_of_filter.
  rewrite <- search_results_keys.
  unfold get_menu.
  assert (T : truthy (Some name) = true) by (destruct name; [congruence|reflexivity]).
  rewrite T.
  destruct (search_results py_lower name) as [|[m details] l]; cbn.
  - reflexivity.
  - eexists. eexists. eexists. split; [reflexivity|]. split; reflexivity.
Qed.

Lemma order_line_resolves_to_first_search_hit_witness :
  match_item lower "pomfret" = Some "Pomfret (White)"
  /\ exists reply line rest,
       get_menu lower (Some "pomfret") = Returned reply
       /\ MenuReply.menu reply = line :: rest
       /\ MenuLine.item line = "Pomfret (White)".
Proof.
  split; [vm_compute; reflexivity|].
  pose proof (order_line_resolves_to_first_search_hit lower "pomfret") as H.
  assert (M : match_item lower "pomfret" = Some "Pomfret (White)")
    by (vm_compute; reflexivity).
  rewrite M in H. apply H. discriminate.
Defined.

Section BlankSegments.

Variable py_strip : string -> string.
Variable py_lower : string -> string.
Variable py_float : string -> option float.
Variable class_timestamp : string.

Lemma split_char_nonempty c s : split_char c s <> [].
Proof.
  destruct s as [|a s]; cbn; [discriminate|].
  destruct (Ascii.eqb a c); [discriminate|].
  destruct (split_char c s); discriminate.
Qed.

Lemma split_char_app c s1 s2 :
  split_char c (s1 ++ String c s2)
  = (split_char c s1 ++ split_char c s2)%list.
Proof.
  induction s1 as [|a s1 IH]; cbn.
  - rewrite Ascii.eqb_refl. reflexivity.
  - destruct (Ascii.eqb a c); [rewrite IH; reflexivity|].
    rewrite IH. pose proof (split_char_nonempty c s1) as N.
    destruct (split_char c s1); [contradiction|reflexivity].
Qed.

Lemma split_char_no_comma s : no_comma s = true -> split_char "," s = [s].
Proof.
  induction s as [|a s IH]; cbn; [reflexivity|].
  destruct (Ascii.eqb a ","); cbn; [discriminate|].
  intros H. rewrite IH by assumption. reflexivity.
Qed.

Lemma parse_items_app l1 l2 acc :
  parse_items py_strip py_lower py_float acc (l1 ++ l2)
  = bind (parse_items py_strip py_lower py_float acc l1)
         (fun acc => parse_items py_strip py_lower py_float acc l2).
Proof.
  revert acc. induction l1 as [|s l1 IH]; intros acc; cbn; [reflexivity|].
  destruct (parse_item py_strip py_lower py_float acc s); cbn;
    [apply IH|reflexivity].
Qed.

Lemma parse_items_skip_blank blank l1 l2 acc :
  py_strip blank = EmptyString ->
  parse_items py_strip py_lower py_float acc (l1 ++ blank :: l2)
  = parse_items py_strip py_lower py_float acc (l1 ++ l2).
Proof.
  intros B. rewrite !parse_items_app.
  destruct (parse_items py_strip py_lower py_float acc l1) as [[p e]|x];
    cbn; [|reflexivity].
  unfold parse_item. rewrite B. reflexivity.
Qed.

(** X18. Blank segments of the item text do not count.  A segment
    between commas that strips to nothing (and so a doubled, leading or
    trailing comma) can be dropped from the text without changing what
    [place_order] returns, raises or stores. *)
Theorem blank_segments_are_ignored
    (customer_name customer_contact special_instructions : string)
    (orders : list BusinessOrder.t) (before blank rest : string) :
  py_strip blank = EmptyString ->
  no_comma blank = true ->
  let place_text items :=
    place_order py_strip py_lower py_float class_timestamp
                customer_name customer_contact items
                special_instructions orders in
  place_text (before ++ "," ++ blank ++ "," ++ rest)
  = place_text (before ++ "," ++ rest)
  /\ place_text (before ++ "," ++ blank) = place_text before
  /\ place_text (blank ++ "," ++ rest) = place_text rest.
Proof.
  intros B C. cbv zeta. unfold place_order.
  change ("," ++ blank ++ "," ++ rest) with (String "," (blank ++ "," ++ rest)).
  change ("," ++ rest) with (String "," rest).
  change ("," ++ blank) with (String "," blank).
  rewrite !split_char_app, (split_char_no_comma blank C).
  split; [|split].
  - cbn [app]. rewrite (parse_items_skip_blank blank _ _ _ B). reflexivity.
  - rewrite <- (app_nil_r (split_char "," before)) at 2.
    rewrite (parse_items_skip_blank blank _ [] _ B). reflexivity.
  - change ([blank] ++ split_char "," rest)%list
      with ([] ++ blank :: split_char "," rest)%list.
    rewrite (parse_items_skip_blank blank [] _ _ B). reflexivity.
Qed.

End BlankSegments.

Lemma blank_segments_are_ignored_witness :
  sample_place_order "Asha" "+919876543210" "2kg surmai,  ,1 prawns" "" []
  = sample_place_order "Asha" "+919876543210" "2kg surmai,1 prawns" "" [].
Proof.
  destruct (blank_segments_are_ignored
              ascii_strip lower integer_float "2025-08-10T09:00:00"
              "Asha" "+919876543210" "" [] "2kg surmai" "  " "1 prawns")
    as [H _]; [reflexivity|reflexivity|].
  exact H.
Defined.

(** ** The agents offered and the agents accepted *)

(** X19. The agents [order_ready] offers are the agents
    [delivery_assign] accepts.  Marking an accepted order ready returns
    status Ready, its vendor message and, as options, the id and name of
    every agent of the directory, in directory order: agent_1 Sam,
    agent_2 Asha, agent_3 Raj.  Assigning the order right after it
    succeeds exactly for the ids among those options, and for any other
    id fails with "agent_not_found", leaving the store as it was. *)
Theorem offered_agents_are_the_assignable_ones
    (fmt : FormatMode) (id : string) (t t' : Z) (orders : Store)
    (o : Order.t) :
  get_order orders id = Some o ->
  Order.status o = OrderStatus.ACCEPTED ->
  let ready := order_ready fmt id t orders in
  let options :=
    map (fun a => (Agent.id a, Agent.name a)) (Dict.values delivery_agents) in
  options = [("agent_1", "Sam"); ("agent_2", "Asha"); ("agent_3", "Raj")]
  /\ fst ready
     = MadeReady OrderStatus.READY
                 ("Order " ++ id ++ " is ready. Choose a delivery agent.")
                 options
  /\ forall agent_id,
       (In agent_id (map fst options)
        <-> ok (fst (delivery_assign fmt id agent_id t' (snd ready))) = true)
       /\ (In agent_id (map fst options)
           <-> Dict.get delivery_agents agent_id <> None)
       /\ (~ In agent_id (map fst options) ->
           delivery_assign fmt id agent_id t' (snd ready)
           = (Failure "agent_not_found", snd ready)).
Proof.
  intros G S. cbv zeta.
  pose (o1 := Order.set_ready_at (Order.set_status o OrderStatus.READY) t).
  destruct (exec_fires fmt (MarkReady id) t orders o o1 G
              (fires_ready id t o S)) as (_ & _ & G1).
  cbn [exec target] in G1.
  split; [reflexivity|]. split.
  { unfold order_ready. rewrite G.
    destruct (validate_status fmt o OrderStatus.ACCEPTED) eqn:V;
      [|reflexivity].
    apply (validate_status_passes fmt) in S. congruence. }
  intros a.
  assert (K : In a (map fst (map (fun a => (Agent.id a, Agent.name a))
                                 (Dict.values delivery_agents)))
              <-> Dict.get delivery_agents a <> None).
  { change (map fst (map (fun a => (Agent.id a, Agent.name a))
                         (Dict.values delivery_agents)))
      with (Dict.keys delivery_agents).
    pose proof (get_none_not_key delivery_agents a) as H.
    destruct (Dict.get delivery_agents a) eqn:A.
    - split; [discriminate|]. intros _.
      destruct (in_dec string_dec a (Dict.keys delivery_agents)) as [I|I];
        [exact I|]. apply H in I. discriminate.
    - split; [|congruence]. intros I. exfalso. apply (proj1 H); auto. }
  unfold delivery_assign. rewrite G1.
  change (validate_status fmt o1 OrderStatus.READY) with (@None string).
  destruct (Dict.get delivery_agents a) eqn:A; cbn [fst ok].
  - split; [split; [reflexivity|]|split; [exact K|]].
    + intros _. apply K. discriminate.
    + intros N. exfalso. apply N, K. discriminate.
  - split; [split; [|discriminate]|split; [exact K|reflexivity]].
    intros I. apply K in I. congruence.
Qed.

Lemma offered_agents_are_the_assignable_ones_witness :
  fst (order_ready format_value "a1b2c3d4" 1020 (sample_store 3))
  = MadeReady OrderStatus.READY
              "Order a1b2c3d4 is ready. Choose a delivery agent."
              [("agent_1", "Sam"); ("agent_2", "Asha"); ("agent_3", "Raj")]
  /\ ok (fst (delivery_assign format_value "a1b2c3d4" "agent_3" 1030
                (snd (order_ready format_value "a1b2c3d4" 1020
                                  (sample_store 3))))) = true.
Proof.
  edestruct (offered_agents_are_the_assignable_ones
               format_value "a1b2c3d4" 1020 1030 (sample_store 3))
    as (_ & E & H);
    [vm_compute; reflexivity|reflexivity|].
  split; [exact E|].
  apply H. right. right. left. reflexivity.
Defined.
